(** * AI Task Optimizer: mood history, stress monitor and task recommender

    A shallow embedding of [final_AI_Task_Optimizer.py] and the properties
    of its history store, stress monitor and task recommender.

    Python values are embedded as the inductive [value]; a function of the
    script that prints, touches the backing file or may raise becomes a
    computation in the monad [M], which threads the [world] (files and
    standard output) and carries a Python exception as [Raise].  The
    library functions the script calls ([json.dump], [json.load],
    [hashlib.sha256]) are parameters of the development; a reference JSON
    codec instantiates them where a closed statement is needed.

    The script is embedded twice.  In the first embedding a function
    takes the history as a value, and the one change of the history,
    [mood_history.append] in [main], is the history that an iteration of
    the loop returns; the properties of what the functions compute are
    stated on it.  In the second one, [Objects], lists and dictionaries
    live in a store and the functions take references, so that a function
    could change the history or a record of it; that none does is a
    theorem on it. *)

From Stdlib Require Import ZArith String Ascii List Lia Bool DecimalString Floats.
From stdpp Require Import base option strings list gmap.
Import ListNotations.

Local Open Scope string_scope.
Local Open Scope list_scope.

(** ** Python values *)

(** The values that occur in a mood history: what [json.load] produces and
    what [main] builds.  A [dict] keeps its insertion order, which is the
    order [json.dump] prints, hence an association list; its keys are
    strings, as in JSON objects and in the records of [main].  A [float]
    is a binary64 number, with the comparisons of IEEE 754. *)
#[warnings="-register-all"]
Inductive value : Type :=
| VNone
| VBool (b : bool)
| VInt (z : Z)
| VFloat (x : float)
| VStr (s : string)
| VList (l : list value)
| VDict (d : list (string * value)).

(** The exceptions that the embedded fragment can raise.  All of them are
    subclasses of [Exception]. *)
Inductive exn : Type :=
| KeyError (key : string)
| TypeError (msg : string)
| AttributeError (msg : string)
| OSError (msg : string)
| ValueError (msg : string)
| UnicodeDecodeError
| RecursionError
| JSONDecodeError.

Inductive outcome (A : Type) : Type :=
| Ok (a : A)
| Raise (e : exn).
Arguments Ok {A} a.
Arguments Raise {A} e.

#[global] Instance outcome_ret : MRet outcome := fun A a => Ok a.
#[global] Instance outcome_bind : MBind outcome := fun A B f m =>
  match m with
  | Ok a => f a
  | Raise e => Raise e
  end.

(** [str(e)] as the f-string of [save_mood_history] prints it. *)
Definition str_exn (e : exn) : string :=
  match e with
  | KeyError k => "'" +:+ k +:+ "'"
  | TypeError m => m
  | AttributeError m => m
  | OSError m => m
  | ValueError m => m
  | UnicodeDecodeError => "'utf-8' codec can't decode byte"
  | RecursionError => "maximum recursion depth exceeded"
  | JSONDecodeError => "Expecting value"
  end.

(** ** Dictionaries and lists *)

Fixpoint dict_get (d : list (string * value)) (k : string) : option value :=
  match d with
  | [] => None
  | (k', v) :: d' => if String.eqb k' k then Some v else dict_get d' k
  end.

Definition dict_keys (d : list (string * value)) : list string := map fst d.

(** [isinstance(v, dict)] *)
Definition is_dict (v : value) : bool :=
  match v with
  | VDict _ => true
  | _ => false
  end.

(** [k in v] for a string [k], used by the script only behind
    [isinstance(v, dict)]; on a list it is membership, on a string it is
    the substring test, which the script never reaches. *)
Definition has_key (k : string) (v : value) : bool :=
  match v with
  | VDict d => bool_decide (is_Some (dict_get d k))
  | _ => false
  end.

(** [v[k]] for a string [k]. *)
Definition subscript (v : value) (k : string) : outcome value :=
  match v with
  | VDict d =>
      match dict_get d k with
      | Some x => Ok x
      | None => Raise (KeyError k)
      end
  | VList _ => Raise (TypeError "list indices must be integers or slices, not str")
  | VStr _ => Raise (TypeError "string indices must be integers, not 'str'")
  | VNone => Raise (TypeError "'NoneType' object is not subscriptable")
  | VBool _ => Raise (TypeError "'bool' object is not subscriptable")
  | VInt _ => Raise (TypeError "'int' object is not subscriptable")
  | VFloat _ => Raise (TypeError "'float' object is not subscriptable")
  end.

(** [v == s] for a string literal [s]: only the same string is equal. *)
Definition eq_str (v : value) (s : string) : bool :=
  match v with
  | VStr t => String.eqb t s
  | _ => false
  end.

(** [l[i:]]: a negative start counts from the end and is clamped at the
    beginning, a positive one is clamped at the end. *)
Definition slice_from {A : Type} (i : Z) (l : list A) : list A :=
  let n := Z.of_nat (length l) in
  let start := if (i <? 0)%Z then Z.max 0 (n + i) else Z.min i n in
  drop (Z.to_nat start) l.

(** A list comprehension whose element expression may raise: elements are
    evaluated left to right and the first exception ends it. *)
Fixpoint comprehension {A B : Type} (f : A -> outcome B) (l : list A)
  : outcome (list B) :=
  match l with
  | [] => Ok []
  | x :: l' =>
      match f x with
      | Ok y =>
          match comprehension f l' with
          | Ok ys => Ok (y :: ys)
          | Raise e => Raise e
          end
      | Raise e => Raise e
      end
  end.

(** ** Strings *)

Definition is_upper (c : ascii) : bool :=
  let n := nat_of_ascii c in (65 <=? n)%nat && (n <=? 90)%nat.
Definition is_lower (c : ascii) : bool :=
  let n := nat_of_ascii c in (97 <=? n)%nat && (n <=? 122)%nat.
Definition to_upper (c : ascii) : ascii :=
  if is_lower c then ascii_of_nat (nat_of_ascii c - 32) else c.
Definition to_lower (c : ascii) : ascii :=
  if is_upper c then ascii_of_nat (nat_of_ascii c + 32) else c.

Fixpoint lower (s : string) : string :=
  match s with
  | EmptyString => EmptyString
  | String c s' => String (to_lower c) (lower s')
  end.

(** [str.isascii()] *)
Definition ascii_char (c : ascii) : bool := (nat_of_ascii c <? 128)%nat.

Fixpoint isascii (s : string) : bool :=
  match s with
  | EmptyString => true
  | String c s' => ascii_char c && isascii s'
  end.

(** [str.capitalize()] on the letters of ASCII: first character upper
    case, the rest lower case.  A character that is no letter of ASCII is
    kept, so the definition is exact on ASCII strings; on others
    [str.capitalize] follows the case mappings of Unicode, which also
    send some characters outside ASCII to letters of ASCII. *)
Definition capitalize (s : string) : string :=
  match s with
  | EmptyString => EmptyString
  | String c s' => String (to_upper c) (lower s')
  end.

(** ** The world: backing files and standard output *)

(** A file: its permissions and the bytes it holds. *)
Record file : Type := mkFile {
  readable : bool;
  writable : bool;
  data : string
}.

(** What [plt.bar(moods, counts, color=bar_colors)] is handed. *)
Record chart : Type := mkChart {
  bar_moods : list value;
  bar_counts : list nat;
  bar_colors : list string
}.

Record world : Type := mkWorld {
  files : gmap string file;
  stdout : list string;
  charts : list chart
}.

Definition set_files (fs : gmap string file) (w : world) : world :=
  mkWorld fs (stdout w) (charts w).
Definition add_stdout (line : string) (w : world) : world :=
  mkWorld (files w) (stdout w ++ [line]) (charts w).
Definition add_chart (c : chart) (w : world) : world :=
  mkWorld (files w) (stdout w) (charts w ++ [c]).

(** A computation of the script: it runs in a world, ends with a value or
    an exception, and leaves a world; what was printed or written before
    an exception stays. *)
Definition M (A : Type) : Type := world -> outcome A * world.

#[global] Instance M_ret : MRet M := fun A a w => (Ok a, w).
#[global] Instance M_bind : MBind M := fun A B f m w =>
  match m w with
  | (Ok a, w') => f a w'
  | (Raise e, w') => (Raise e, w')
  end.

Definition raise {A : Type} (e : exn) : M A := fun w => (Raise e, w).
Definition lift {A : Type} (o : outcome A) : M A := fun w => (o, w).

(** [try: body / except <class> as e: handler e], the class given by the
    exceptions it catches. *)
Definition try_except {A : Type} (body : M A) (catches : exn -> bool)
  (handler : exn -> M A) : M A := fun w =>
  match body w with
  | (Ok a, w') => (Ok a, w')
  | (Raise e, w') => if catches e then handler e w' else (Raise e, w')
  end.

(** [except Exception]: every exception of the fragment. *)
Definition Exception (e : exn) : bool := true.
(** [except json.JSONDecodeError] *)
Definition is_JSONDecodeError (e : exn) : bool :=
  match e with
  | JSONDecodeError => true
  | _ => false
  end.

Definition print (line : string) : M value := fun w => (Ok VNone, add_stdout line w).

(** [os.path.exists(filename)] *)
Definition os_path_exists (filename : string) : M bool := fun w =>
  (Ok (bool_decide (is_Some (files w !! filename))), w).

(** [os.stat(filename).st_size] *)
Definition os_stat_size (filename : string) : M nat := fun w =>
  match files w !! filename with
  | Some f => (Ok (String.length (data f)), w)
  | None => (Raise (OSError "[Errno 2] No such file or directory"), w)
  end.

(** [open(filename, "r")]: the bytes behind the file object that
    [json.load] reads; decoding them is part of [json.load]. *)
Definition read_text (filename : string) : M string := fun w =>
  match files w !! filename with
  | Some f =>
      if readable f then (Ok (data f), w)
      else (Raise (OSError "[Errno 13] Permission denied"), w)
  | None => (Raise (OSError "[Errno 2] No such file or directory"), w)
  end.

(** [open(filename, "w")] followed by writing [text] and closing: an
    existing file keeps its permissions and has its content replaced, a
    missing file is created; a file without write permission stands for
    every I/O failure. *)
Definition write_text (filename : string) (text : string) : M value := fun w =>
  match files w !! filename with
  | Some f =>
      if writable f
      then (Ok VNone, set_files (<[filename := mkFile (readable f) true text]> (files w)) w)
      else (Raise (OSError "[Errno 13] Permission denied"), w)
  | None => (Ok VNone, set_files (<[filename := mkFile true true text]> (files w)) w)
  end.

(** ** Stress monitor *)

(** [[entry["mood"] for entry in mood_history[-5:]
      if isinstance(entry, dict) and "mood" in entry]] *)
Definition recent_moods (mood_history : list value) : outcome (list value) :=
  comprehension (fun entry => subscript entry "mood")
    (filter (fun entry => is_dict entry && has_key "mood" entry = true)
       (slice_from (-5) mood_history)).

(** [sum(1 for mood in recent_moods if mood == "Sad")] *)
Definition stressed_count (moods : list value) : nat :=
  list_sum (map (fun _ => 1) (filter (fun mood => eq_str mood "Sad" = true) moods)).

Definition stress_threshold : nat := 3.

Definition alert_message : string :=
  "⚠️ ALERT: Prolonged stress detected! Notifying HR.".

Definition monitor_stress (mood_history : list value) : M value :=
  moods ← lift (recent_moods mood_history);
  if (stress_threshold <=? stressed_count moods)%nat
  then print alert_message
  else mret VNone.

(** ** Task recommender *)

Definition tasks : list (string * list string) :=
  [ ("Happy", ["Collaborate on a new project"; "Share positivity with the team"]);
    ("Sad", ["Take a break"; "Listen to music"; "Talk to a friend"]);
    ("Fear", ["Practice deep breathing"; "Engage in light work"; "Seek support"]);
    ("Angry", ["Cool down with a short walk"; "Work on solo tasks"]);
    ("Surprise", ["Reflect on new insights"; "Plan next steps"]) ].

Definition no_suggestion : string := "No suggestion available".

(** [d.get(k, default)] on a table with string keys *)
Fixpoint table_get {A : Type} (d : list (string * A)) (k : string) (default : A) : A :=
  match d with
  | [] => default
  | (k', v) :: d' => if String.eqb k' k then v else table_get d' k default
  end.

(** [random.choice(seq)] is [seq[randbelow(len(seq))]]; [draw] is the
    number the generator yields, reduced to an index of [seq]. *)
Definition random_choice (draw : nat) (seq : list string) : string :=
  nth (draw mod length seq) seq "".

Definition recommend_task (draw : nat) (mood : string) : string :=
  let mood := capitalize mood in
  random_choice draw (table_get tasks mood [no_suggestion]).

(** ** Reporter tables *)

Definition colors : list (string * string) :=
  [ ("Happy", "green"); ("Sad", "black"); ("Fear", "red");
    ("Surprise", "orange"); ("Angry", "blue"); ("Neutral", "gold") ].

(** Truth value of a Python object, as [if not x] tests it. *)
Definition truthy (v : value) : bool :=
  match v with
  | VNone => false
  | VBool b => b
  | VInt z => negb (z =? 0)%Z
  | VFloat x => negb (PrimFloat.eqb x 0)
  | VStr s => negb (String.eqb s "")
  | VList l => negb (bool_decide (l = []))
  | VDict d => negb (bool_decide (d = []))
  end.

(** The elements a [for] loop over [v] visits. *)
Definition iterate (v : value) : outcome (list value) :=
  match v with
  | VList l => Ok l
  | VDict d => Ok (map VStr (dict_keys d))
  | VStr s => Ok (map (fun c => VStr (String c EmptyString)) (list_ascii_of_string s))
  | VNone => Raise (TypeError "'NoneType' object is not iterable")
  | VBool _ => Raise (TypeError "'bool' object is not iterable")
  | VInt _ => Raise (TypeError "'int' object is not iterable")
  | VFloat _ => Raise (TypeError "'float' object is not iterable")
  end.

(** [x == z] for a float and an integer: the comparison is exact. *)
Definition float_eq_int (x : float) (z : Z) : bool :=
  match Prim2SF x with
  | S754_zero _ => (z =? 0)%Z
  | S754_finite s m e =>
      let n := (if s then Z.neg m else Z.pos m) in
      if (0 <=? e)%Z then (z =? n * 2 ^ e)%Z else (z * 2 ^ (- e) =? n)%Z
  | _ => false
  end.

(** Keys of a [Counter]: hashable values, compared by [==], under which
    [True == 1 == 1.0] and [False == 0 == 0.0], and a NaN equals no
    value, itself included. *)
Definition hashable (v : value) : bool :=
  match v with
  | VList _ | VDict _ => false
  | _ => true
  end.

Definition key_eq (a b : value) : bool :=
  match a, b with
  | VNone, VNone => true
  | VStr s, VStr t => String.eqb s t
  | VBool x, VBool y => Bool.eqb x y
  | VInt x, VInt y => (x =? y)%Z
  | VBool x, VInt y | VInt y, VBool x => ((if x then 1 else 0) =? y)%Z
  | VFloat x, VFloat y => PrimFloat.eqb x y
  | VFloat x, VInt y | VInt y, VFloat x => float_eq_int x y
  | VFloat x, VBool y | VBool y, VFloat x => float_eq_int x (if y then 1 else 0)
  | _, _ => false
  end.

Fixpoint counter_add (c : list (value * nat)) (k : value) : list (value * nat) :=
  match c with
  | [] => [(k, 1%nat)]
  | (k', n) :: c' => if key_eq k' k then (k', S n) :: c' else (k', n) :: counter_add c' k
  end.

(** [Counter(iterable)], keys in the order of their first occurrence. *)
Fixpoint Counter (c : list (value * nat)) (items : list value)
  : outcome (list (value * nat)) :=
  match items with
  | [] => Ok c
  | k :: items' =>
      if hashable k then Counter (counter_add c k) items'
      else Raise (TypeError "unhashable type")
  end.

(** The aggregation step of [plot_team_mood]:
    [Counter(entry["mood"] for entry in mood_history
             if isinstance(entry, dict) and "mood" in entry)] *)
Definition mood_counts (entries : list value) : outcome (list (value * nat)) :=
  moods ← comprehension (fun entry => subscript entry "mood")
            (filter (fun entry => is_dict entry && has_key "mood" entry = true) entries);
  Counter [] moods.

(** [colors.get(mood, "gray")] *)
Definition color_of (mood : value) : string :=
  match mood with
  | VStr s => table_get colors s "gray"
  | _ => "gray"
  end.

Definition plot_team_mood (mood_history : value) : M value :=
  if negb (truthy mood_history)
  then print "⚠️ No mood history available to plot."
  else
    entries ← lift (iterate mood_history);
    counts ← lift (mood_counts entries);
    if bool_decide (counts = [])
    then print "⚠️ No valid mood data available for plotting."
    else
      fun w => (Ok VNone,
                add_chart (mkChart (map fst counts) (map snd counts)
                                   (map (fun kc => color_of (fst kc)) counts)) w).

(** ** History store and main loop *)

Section Script.

(** The text [json.dump(obj, file, indent=4)] writes. *)
Variable json_dumps : value -> string.
(** [json.load] on a file that holds these bytes: the value it returns
    or the exception it raises, [json.JSONDecodeError] for text that is
    not valid JSON, another one ([UnicodeDecodeError], [RecursionError],
    [ValueError]) when reading or decoding fails otherwise. *)
Variable json_loads : string -> outcome value.
(** [hashlib.sha256(bytes).hexdigest()] *)
Variable sha256_hexdigest : string -> string.

Definition anonymize_data (data : string) : string := sha256_hexdigest data.

(** [{"employee_id": entry["employee_id"],
      "anonymized_mood": entry["anonymized_mood"]}] *)
Definition project (entry : value) : outcome value :=
  e ← subscript entry "employee_id";
  a ← subscript entry "anonymized_mood";
  mret (VDict [("employee_id", e); ("anonymized_mood", a)]).

(** The suite of the [try] statement of [save_mood_history]. *)
Definition save_body (mood_history : list value) (filename : string) : M value :=
  filtered_history ← lift (comprehension project mood_history);
  _ ← write_text filename (json_dumps (VList filtered_history));
  print "✅ Mood history successfully updated with anonymized data!".

Definition save_error (e : exn) : string :=
  "❌ Error saving mood history: " +:+ str_exn e.

Definition save_mood_history (mood_history : list value) (filename : string)
  : M value :=
  try_except (save_body mood_history filename) Exception
    (fun e => print (save_error e)).

Definition json_load (text : string) : M value := lift (json_loads text).

Definition corrupted_warning : string :=
  "⚠️ Warning: mood_history.json is corrupted or empty. Resetting...".

Definition load_mood_history (filename : string) : M value :=
  present ← os_path_exists filename;
  if negb present then mret (VList [])
  else
    size ← os_stat_size filename;
    if (size =? 0)%nat then mret (VList [])
    else
      try_except
        (text ← read_text filename; json_load text)
        is_JSONDecodeError
        (fun _ => _ ← print corrupted_warning; mret (VList [])).

(** One iteration of the camera: the dominant emotions [DeepFace.analyze]
    reports for the frame, the number [random.choice] draws, and whether
    the key [q] is pressed after the frame is shown. *)
Record frame : Type := mkFrame {
  analysis : list string;
  draw : nat;
  key_q : bool
}.

Definition detect_facial_emotion (result : list string) : string :=
  match result with
  | dominant_emotion :: _ => capitalize dominant_emotion
  | [] => "Neutral"
  end.

Definition mood_entry (employee_id detected_mood : string) : value :=
  VDict [("employee_id", VStr employee_id);
         ("mood", VStr detected_mood);
         ("anonymized_mood", VStr (anonymize_data detected_mood))].

Definition history_file : string := "mood_history.json".

(** The body of the [while True] loop after a frame was read: the new
    history is the old one with the frame's record appended. *)
Definition main_step (employee_id : string) (fr : frame)
  (mood_history : list value) : M (list value) :=
  let detected_mood := detect_facial_emotion (analysis fr) in
  let mood_history := mood_history ++ [mood_entry employee_id detected_mood] in
  _ ← save_mood_history mood_history history_file;
  _ ← monitor_stress mood_history;
  _ ← print ("🧐 Employee: " +:+ employee_id +:+ " | Detected Mood: " +:+ detected_mood);
  _ ← print ("🎯 Recommended Task: " +:+ recommend_task (draw fr) detected_mood);
  mret mood_history.

(** The loop over the frames the camera delivers; it ends when the
    camera has no more frames or [q] is pressed. *)
Fixpoint main_loop (employee_id : string) (frames : list frame)
  (mood_history : list value) : M (list value) :=
  match frames with
  | [] => mret mood_history
  | fr :: frames' =>
      mood_history ← main_step employee_id fr mood_history;
      if key_q fr then mret mood_history
      else main_loop employee_id frames' mood_history
  end.

(** [main], given the employee id typed at the prompt and the frames. *)
Definition main (employee_id : string) (frames : list frame) : M value :=
  loaded ← load_mood_history history_file;
  match loaded, frames with
  | VList l, _ =>
      mood_history ← main_loop employee_id frames l;
      plot_team_mood (VList mood_history)
  | _, [] => plot_team_mood loaded
  | _, _ :: _ => raise (AttributeError "object has no attribute 'append'")
  end.

End Script.

(** ** A reference JSON codec

    [json.dump(obj, file, indent=4)] and [json.load] of CPython, on the
    values of the embedding: [null], booleans, integers, binary64
    numbers, strings, arrays and objects.  The encoder prints a float as
    [float.__repr__] does, the shortest digits that round back to it.
    The decoder takes the bytes of the file: it decodes them as UTF-8,
    which is what [open(filename, "r")] does where UTF-8 is the preferred
    encoding, and parses the text as [json.loads] does, converting a
    number with a fraction or an exponent to the nearest binary64 number.

    The strings of the embedding hold characters below 256.  A text with
    a character above 255 is outside the domain of this codec, which
    answers [wide_character] there; [json.loads] has an answer of its
    own.  The codec has no bound on the nesting of a text nor on the
    digits of an integer, where CPython raises [RecursionError] and
    [ValueError]. *)
Module RefJson.

Definition dquote : ascii := "034"%char.
Definition backslash : ascii := "092"%char.
Definition newline : ascii := "010"%char.

Definition hex_digit (n : nat) : ascii :=
  nth n (list_ascii_of_string "0123456789abcdef") "0"%char.

(** [ESCAPE_ASCII]: a quote, a backslash and every character outside
    the range from space to tilde is escaped. *)
Definition escape_char (c : ascii) : string :=
  let n := nat_of_ascii c in
  if (n =? 34)%nat then String backslash (String dquote EmptyString)
  else if (n =? 92)%nat then String backslash (String backslash EmptyString)
  else if (n =? 10)%nat then String backslash "n"
  else if (n =? 13)%nat then String backslash "r"
  else if (n =? 9)%nat then String backslash "t"
  else if (n =? 8)%nat then String backslash "b"
  else if (n =? 12)%nat then String backslash "f"
  else if (n <? 32)%nat || (126 <? n)%nat
       then String backslash
              ("u00" +:+ String (hex_digit (n / 16))
                           (String (hex_digit (n mod 16)) EmptyString))
  else String c EmptyString.

Fixpoint escape (s : string) : string :=
  match s with
  | EmptyString => EmptyString
  | String c s' => escape_char c +:+ escape s'
  end.

Definition dumps_string (s : string) : string :=
  String dquote (escape s +:+ String dquote EmptyString).

Definition repr_int (z : Z) : string :=
  DecimalString.NilZero.string_of_int (Z.to_int z).

(** *** Binary64 numbers *)

(** [num / den] for positive [num] and [den], rounded to the nearest
    binary64 number, ties to even: the quotient is computed with more
    than 64 bits and the remainder tells on which side of the middle
    the exact value lies. *)
Definition round_ratio (negative : bool) (num den : Z) : float :=
  let shift := Z.max 0 (64 + Z.log2 den + 1 - Z.log2 num) in
  let n := Z.shiftl num shift in
  let q := (n / den)%Z in
  let r := (n mod den)%Z in
  let loc := if (r =? 0)%Z then SpecFloat.loc_Exact
             else SpecFloat.loc_Inexact (Z.compare (2 * r) den) in
  SF2Prim (SpecFloat.binary_round_aux prec emax negative q (- shift) loc).

(** [float(text)] for the decimal [digits * 10 ^ exponent] with
    [0 <= digits]: the nearest binary64 number.  A decimal above
    [10 ^ 310] is beyond the largest finite number and one below
    [10 ^ -330] is less than half the smallest. *)
Definition float_of_decimal (negative : bool) (digits exponent : Z) : float :=
  if (digits =? 0)%Z then (if negative then neg_zero else zero)
  else if (310 <? exponent + Z.log2 digits / 4)%Z
       then (if negative then neg_infinity else infinity)
  else if (exponent + Z.log2 digits / 3 + 1 <? -330)%Z
       then (if negative then neg_zero else zero)
  else if (0 <=? exponent)%Z
       then SF2Prim (SpecFloat.binary_normalize prec emax
                       ((if negative then -1 else 1) * digits * 10 ^ exponent) 0 false)
  else round_ratio negative digits (10 ^ (- exponent)).

(** The shortest digits that round to [m * 2 ^ e], by the algorithm of
    Burger and Dybvig on exact integers.  The number is [r / s], its
    neighbours are [mm / s] below and [mp / s] above; [even] tells that
    the ends of the rounding interval belong to it. *)
Fixpoint scale_up (fuel : nat) (even : bool) (r s mp k : Z) : Z * Z :=
  match fuel with
  | O => (s, k)
  | S fuel' =>
      if (if even then s <=? r + mp else s <? r + mp)%Z
      then scale_up fuel' even r (s * 10)%Z mp (k + 1)%Z
      else (s, k)
  end.

Fixpoint scale_down (fuel : nat) (even : bool) (r s mp mm k : Z) : Z * Z * Z * Z :=
  match fuel with
  | O => (r, mp, mm, k)
  | S fuel' =>
      if (if even then (r + mp) * 10 <? s else (r + mp) * 10 <=? s)%Z
      then scale_down fuel' even (r * 10)%Z s (mp * 10)%Z (mm * 10)%Z (k - 1)%Z
      else (r, mp, mm, k)
  end.

Fixpoint gen_digits (fuel : nat) (even : bool) (r s mp mm : Z) : list Z :=
  match fuel with
  | O => []
  | S fuel' =>
      let d := (r * 10 / s)%Z in
      let r := ((r * 10) mod s)%Z in
      let mp := (mp * 10)%Z in
      let mm := (mm * 10)%Z in
      let low := (if even then r <=? mm else r <? mm)%Z in
      let high := (if even then s <=? r + mp else s <? r + mp)%Z in
      if low then
        if high then (if (r * 2 <? s)%Z then [d] else [d + 1]%Z) else [d]
      else
        if high then [d + 1]%Z else d :: gen_digits fuel' even r s mp mm
  end.

(** The digits of [m * 2 ^ e] and the position of the decimal point
    after them. *)
Definition shortest_digits (m : positive) (e : Z) : list Z * Z :=
  let m := Zpos m in
  let even := Z.even m in
  let boundary := (m =? 2 ^ 52)%Z && negb (e =? -1074)%Z in
  let '(r, s, mp, mm) :=
    if (0 <=? e)%Z then
      if boundary then (m * 2 ^ e * 4, 4, 2 ^ (e + 1), 2 ^ e)%Z
      else (m * 2 ^ e * 2, 2, 2 ^ e, 2 ^ e)%Z
    else
      if boundary then (m * 4, 2 ^ (- e) * 4, 2, 1)%Z
      else (m * 2, 2 ^ (- e) * 2, 1, 1)%Z in
  let '(s, k) := scale_up 400 even r s mp 0 in
  let '(r, mp, mm, k) := scale_down 400 even r s mp mm k in
  (gen_digits 20 even r s mp mm, k).

Definition digit_char (d : Z) : ascii := ascii_of_nat (48 + Z.to_nat d).

Fixpoint digits_string (ds : list Z) : string :=
  match ds with
  | [] => EmptyString
  | d :: ds' => String (digit_char d) (digits_string ds')
  end.

Fixpoint zeros (n : nat) : string :=
  match n with
  | O => EmptyString
  | S n' => String "0" (zeros n')
  end.

(** [float_repr_style] is short: the digits without an exponent when
    the decimal point falls among them or within sixteen places of
    them, with an exponent of at least two digits otherwise. *)
Definition repr_finite (m : positive) (e : Z) : string :=
  let '(ds, decpt) := shortest_digits m e in
  let n := Z.of_nat (length ds) in
  if (decpt <=? -4)%Z || (16 <? decpt)%Z then
    let x := (decpt - 1)%Z in
    let mantissa :=
      match ds with
      | [] => EmptyString
      | [d] => String (digit_char d) EmptyString
      | d :: ds' => String (digit_char d) (String "." (digits_string ds'))
      end in
    mantissa +:+ "e" +:+ (if (x <? 0)%Z then "-" else "+")
      +:+ (if (Z.abs x <? 10)%Z then "0" else EmptyString) +:+ repr_int (Z.abs x)
  else if (decpt <=? 0)%Z then "0." +:+ zeros (Z.to_nat (- decpt)) +:+ digits_string ds
  else if (n <=? decpt)%Z then digits_string ds +:+ zeros (Z.to_nat (decpt - n)) +:+ ".0"
  else digits_string (firstn (Z.to_nat decpt) ds) +:+ "."
         +:+ digits_string (skipn (Z.to_nat decpt) ds).

(** [float.__repr__], with the names that [json] gives to the numbers
    that are not finite. *)
Definition repr_float (x : float) : string :=
  match Prim2SF x with
  | S754_nan => "NaN"
  | S754_infinity s => if s then "-Infinity" else "Infinity"
  | S754_zero s => if s then "-0.0" else "0.0"
  | S754_finite s m e => (if s then "-" else EmptyString) +:+ repr_finite m e
  end.

(** *** Encoder *)

Fixpoint spaces (n : nat) : string :=
  match n with
  | O => EmptyString
  | S n' => String " " (spaces n')
  end.

Definition newline_indent (level : nat) : string :=
  String newline (spaces (4 * level)).

(** The items of a list or dictionary, each on a line of its own at
    [level]; every item but the first follows a comma. *)
Fixpoint join_rest (level : nat) (items : list string) : string :=
  match items with
  | [] => EmptyString
  | item :: items' => "," +:+ newline_indent level +:+ item +:+ join_rest level items'
  end.

Definition join_items (level : nat) (items : list string) : string :=
  match items with
  | [] => EmptyString
  | item :: items' => newline_indent level +:+ item +:+ join_rest level items'
  end.

Definition bracketed (opening closing : string) (level : nat) (items : list string)
  : string :=
  match items with
  | [] => opening +:+ closing
  | _ :: _ =>
      opening +:+ join_items (S level) items +:+ newline_indent level +:+ closing
  end.

Fixpoint dumps_at (level : nat) (v : value) {struct v} : string :=
  match v with
  | VNone => "null"
  | VBool b => if b then "true" else "false"
  | VInt z => repr_int z
  | VFloat x => repr_float x
  | VStr s => dumps_string s
  | VList l => bracketed "[" "]" level (map (dumps_at (S level)) l)
  | VDict d =>
      bracketed "{" "}" level
        (map (fun kv => dumps_string (fst kv) +:+ ": " +:+ dumps_at (S level) (snd kv)) d)
  end.

Definition dumps (v : value) : string := dumps_at 0 v.

(** *** Decoder *)

(** The text that the bytes of a file encode in UTF-8.  A byte that
    starts no character, a character cut short, an overlong form, a
    surrogate and a character above [0x10FFFF] are errors of the
    decoding, wherever they are in the file. *)
Definition wide_character : exn := ValueError "character above 255".

Definition in_range (lo hi : nat) (c : ascii) : bool :=
  let n := nat_of_ascii c in (lo <=? n)%nat && (n <=? hi)%nat.

Definition cons_ok (c : ascii) (r : outcome string) : outcome string :=
  match r with
  | Ok t => Ok (String c t)
  | Raise e => Raise e
  end.

Definition wide (r : outcome string) : outcome string :=
  match r with
  | Raise UnicodeDecodeError => Raise UnicodeDecodeError
  | _ => Raise wide_character
  end.

Fixpoint utf8_decode (bytes : string) : outcome string :=
  match bytes with
  | EmptyString => Ok EmptyString
  | String b s1 =>
      let n := nat_of_ascii b in
      if (n <? 128)%nat then cons_ok b (utf8_decode s1)
      else if in_range 194 223 b then
        match s1 with
        | String c s2 =>
            if in_range 128 191 c then
              let point := ((n - 192) * 64 + (nat_of_ascii c - 128))%nat in
              if (point <? 256)%nat
              then cons_ok (ascii_of_nat point) (utf8_decode s2)
              else wide (utf8_decode s2)
            else Raise UnicodeDecodeError
        | EmptyString => Raise UnicodeDecodeError
        end
      else if in_range 224 239 b then
        match s1 with
        | String c (String d s3) =>
            if in_range (if (n =? 224)%nat then 160 else 128)
                        (if (n =? 237)%nat then 159 else 191) c
               && in_range 128 191 d
            then wide (utf8_decode s3)
            else Raise UnicodeDecodeError
        | _ => Raise UnicodeDecodeError
        end
      else if in_range 240 244 b then
        match s1 with
        | String c (String d (String e s4)) =>
            if in_range (if (n =? 240)%nat then 144 else 128)
                        (if (n =? 244)%nat then 143 else 191) c
               && in_range 128 191 d && in_range 128 191 e
            then wide (utf8_decode s4)
            else Raise UnicodeDecodeError
        | _ => Raise UnicodeDecodeError
        end
      else Raise UnicodeDecodeError
  end.

Definition is_ws (c : ascii) : bool :=
  let n := nat_of_ascii c in
  (n =? 32)%nat || (n =? 9)%nat || (n =? 10)%nat || (n =? 13)%nat.

Fixpoint skip_ws (s : string) : string :=
  match s with
  | String c s' => if is_ws c then skip_ws s' else s
  | EmptyString => s
  end.

Definition unhex (c : ascii) : option nat :=
  let n := nat_of_ascii c in
  if (48 <=? n)%nat && (n <=? 57)%nat then Some (n - 48)
  else if (97 <=? n)%nat && (n <=? 102)%nat then Some (n - 87)
  else if (65 <=? n)%nat && (n <=? 70)%nat then Some (n - 55)
  else None.

Definition unhex4 (a b c d : ascii) : option nat :=
  match unhex a, unhex b, unhex c, unhex d with
  | Some x, Some y, Some z, Some t => Some (((x * 16 + y) * 16 + z) * 16 + t)
  | _, _, _, _ => None
  end.

(** The character a backslash followed by [e] stands for. *)
Definition unescape (e : ascii) : option ascii :=
  let n := nat_of_ascii e in
  if (n =? 34)%nat then Some dquote
  else if (n =? 92)%nat then Some backslash
  else if (n =? 47)%nat then Some "/"%char
  else if (n =? 98)%nat then Some "008"%char
  else if (n =? 102)%nat then Some "012"%char
  else if (n =? 110)%nat then Some "010"%char
  else if (n =? 114)%nat then Some "013"%char
  else if (n =? 116)%nat then Some "009"%char
  else None.

Definition cons_char (c : ascii) (r : outcome (string * string))
  : outcome (string * string) :=
  match r with
  | Ok (t, rest) => Ok (String c t, rest)
  | Raise e => Raise e
  end.

(** The characters of a string literal after its opening quote, and
    the text after its closing quote. *)
Fixpoint parse_chars (s : string) : outcome (string * string) :=
  match s with
  | EmptyString => Raise JSONDecodeError
  | String c s1 =>
      if Ascii.eqb c dquote then Ok (EmptyString, s1)
      else if Ascii.eqb c backslash then
        match s1 with
        | EmptyString => Raise JSONDecodeError
        | String e s2 =>
            if Ascii.eqb e "u" then
              match s2 with
              | String h1 (String h2 (String h3 (String h4 s3))) =>
                  match unhex4 h1 h2 h3 h4 with
                  | Some n =>
                      if (n <? 256)%nat then cons_char (ascii_of_nat n) (parse_chars s3)
                      else Raise wide_character
                  | None => Raise JSONDecodeError
                  end
              | _ => Raise JSONDecodeError
              end
            else
              match unescape e with
              | Some c' => cons_char c' (parse_chars s2)
              | None => Raise JSONDecodeError
              end
        end
      else if (nat_of_ascii c <? 32)%nat then Raise JSONDecodeError
      else cons_char c (parse_chars s1)
  end.

Definition is_digit (c : ascii) : bool :=
  let n := nat_of_ascii c in (48 <=? n)%nat && (n <=? 57)%nat.
Definition digit_val (c : ascii) : Z := Z.of_nat (nat_of_ascii c - 48).

(** The digits at the head of [s]: their value on top of [acc], and
    the text after them. *)
Fixpoint digits (s : string) (acc : Z) : Z * string :=
  match s with
  | String c s' => if is_digit c then digits s' (10 * acc + digit_val c)%Z else (acc, s)
  | EmptyString => (acc, s)
  end.

(** The same with the number of the digits on top of [count]. *)
Fixpoint counted_digits (s : string) (acc count : Z) : Z * Z * string :=
  match s with
  | String c s' =>
      if is_digit c then counted_digits s' (10 * acc + digit_val c)%Z (count + 1)%Z
      else (acc, count, s)
  | EmptyString => (acc, count, s)
  end.

(** A fraction is a point and at least one digit. *)
Definition parse_fraction (s : string) : option (Z * Z * string) :=
  match s with
  | String c (String d s2) =>
      if Ascii.eqb c "." && is_digit d then Some (counted_digits (String d s2) 0 0)
      else None
  | _ => None
  end.

(** An exponent is [e] or [E], a sign or none, and at least one
    digit. *)
Definition parse_exponent (s : string) : option (Z * string) :=
  match s with
  | String c s1 =>
      if Ascii.eqb c "e" || Ascii.eqb c "E" then
        let '(negative, s2) :=
          match s1 with
          | String sign s2' =>
              if Ascii.eqb sign "-" then (true, s2')
              else if Ascii.eqb sign "+" then (false, s2')
              else (false, s1)
          | EmptyString => (false, s1)
          end in
        match s2 with
        | String d _ =>
            if is_digit d then
              let '(n, rest) := digits s2 0 in
              Some ((if negative then - n else n)%Z, rest)
            else None
        | EmptyString => None
        end
      else None
  | EmptyString => None
  end.

(** After the integer part [n]: a fraction or an exponent makes the
    number a float, and neither leaves it an integer. *)
Definition finish_number (negative : bool) (n : Z) (rest : string) : value * string :=
  match parse_fraction rest with
  | Some (f, count, rest1) =>
      match parse_exponent rest1 with
      | Some (e, rest2) =>
          (VFloat (float_of_decimal negative (n * 10 ^ count + f) (e - count)), rest2)
      | None =>
          (VFloat (float_of_decimal negative (n * 10 ^ count + f) (- count)), rest1)
      end
  | None =>
      match parse_exponent rest with
      | Some (e, rest2) => (VFloat (float_of_decimal negative n e), rest2)
      | None => (VInt (if negative then - n else n), rest)
      end
  end.

(** [NUMBER_RE]: the integer part is a zero or starts with another
    digit. *)
Definition parse_number (negative : bool) (s : string) : outcome (value * string) :=
  match s with
  | String c s' =>
      if Ascii.eqb c "0" then Ok (finish_number negative 0 s')
      else if is_digit c then
        let '(n, rest) := digits s' (digit_val c) in
        Ok (finish_number negative n rest)
      else Raise JSONDecodeError
  | EmptyString => Raise JSONDecodeError
  end.

(** [dict(pairs)]: a repeated key keeps its first place and takes the
    last value. *)
Fixpoint dict_set (d : list (string * value)) (k : string) (v : value)
  : list (string * value) :=
  match d with
  | [] => [(k, v)]
  | (k', v') :: d' =>
      if String.eqb k' k then (k', v) :: d' else (k', v') :: dict_set d' k v
  end.

Definition dict_of_pairs (pairs : list (string * value)) : list (string * value) :=
  fold_left (fun d kv => dict_set d (fst kv) (snd kv)) pairs [].

Definition strip_prefix (p s : string) : option string :=
  if String.prefix p s then Some (String.substring (String.length p) (String.length s - String.length p) s)
  else None.

(** The elements of an array after the first character of the first
    element, up to and including the closing bracket. *)
Fixpoint parse_elements (pv : string -> outcome (value * string)) (n : nat)
  (s : string) : outcome (list value * string) :=
  match n with
  | O => Raise RecursionError
  | S n' =>
      match pv s with
      | Raise e => Raise e
      | Ok (v, s1) =>
          match skip_ws s1 with
          | String c s2 =>
              if Ascii.eqb c "]" then Ok ([v], s2)
              else if Ascii.eqb c "," then
                match parse_elements pv n' (skip_ws s2) with
                | Ok (vs, s3) => Ok (v :: vs, s3)
                | Raise e => Raise e
                end
              else Raise JSONDecodeError
          | EmptyString => Raise JSONDecodeError
          end
      end
  end.

(** The members of an object from the opening quote of the first key,
    up to and including the closing brace. *)
Fixpoint parse_members (pv : string -> outcome (value * string)) (n : nat)
  (s : string) : outcome (list (string * value) * string) :=
  match n with
  | O => Raise RecursionError
  | S n' =>
      match s with
      | String q s0 =>
          if Ascii.eqb q dquote then
            match parse_chars s0 with
            | Raise e => Raise e
            | Ok (k, s1) =>
                match skip_ws s1 with
                | String colon s2 =>
                    if Ascii.eqb colon ":" then
                      match pv (skip_ws s2) with
                      | Raise e => Raise e
                      | Ok (v, s3) =>
                          match skip_ws s3 with
                          | String c s4 =>
                              if Ascii.eqb c "}" then Ok ([(k, v)], s4)
                              else if Ascii.eqb c "," then
                                match parse_members pv n' (skip_ws s4) with
                                | Ok (kvs, s5) => Ok ((k, v) :: kvs, s5)
                                | Raise e => Raise e
                                end
                              else Raise JSONDecodeError
                          | EmptyString => Raise JSONDecodeError
                          end
                      end
                    else Raise JSONDecodeError
                | EmptyString => Raise JSONDecodeError
                end
            end
          else Raise JSONDecodeError
      | EmptyString => Raise JSONDecodeError
      end
  end.

(** The names of the values that are no numbers of JSON. *)
Definition parse_constant (s : string) : outcome (value * string) :=
  match strip_prefix "null" s, strip_prefix "true" s, strip_prefix "false" s,
        strip_prefix "NaN" s, strip_prefix "Infinity" s with
  | Some rest, _, _, _, _ => Ok (VNone, rest)
  | _, Some rest, _, _, _ => Ok (VBool true, rest)
  | _, _, Some rest, _, _ => Ok (VBool false, rest)
  | _, _, _, Some rest, _ => Ok (VFloat nan, rest)
  | _, _, _, _, Some rest => Ok (VFloat infinity, rest)
  | _, _, _, _, _ => Raise JSONDecodeError
  end.

(** The value that starts at the first character of [s], and the text
    after it; [fuel] bounds the nesting and the number of elements. *)
Fixpoint parse_value (fuel : nat) (s : string) : outcome (value * string) :=
  match fuel with
  | O => Raise RecursionError
  | S fuel' =>
      match s with
      | EmptyString => Raise JSONDecodeError
      | String c s1 =>
          if Ascii.eqb c dquote then
            match parse_chars s1 with
            | Ok (t, rest) => Ok (VStr t, rest)
            | Raise e => Raise e
            end
          else if Ascii.eqb c "[" then
            match skip_ws s1 with
            | String c2 s2 =>
                if Ascii.eqb c2 "]" then Ok (VList [], s2)
                else
                  match parse_elements (parse_value fuel') fuel' (String c2 s2) with
                  | Ok (vs, rest) => Ok (VList vs, rest)
                  | Raise e => Raise e
                  end
            | EmptyString => Raise JSONDecodeError
            end
          else if Ascii.eqb c "{" then
            match skip_ws s1 with
            | String c2 s2 =>
                if Ascii.eqb c2 "}" then Ok (VDict [], s2)
                else
                  match parse_members (parse_value fuel') fuel' (String c2 s2) with
                  | Ok (kvs, rest) => Ok (VDict (dict_of_pairs kvs), rest)
                  | Raise e => Raise e
                  end
            | EmptyString => Raise JSONDecodeError
            end
          else if Ascii.eqb c "-" then
            match strip_prefix "Infinity" s1 with
            | Some rest => Ok (VFloat neg_infinity, rest)
            | None => parse_number true s1
            end
          else if is_digit c then parse_number false s
          else parse_constant s
      end
  end.

(** The mark that a text file may start with, [U+FEFF] in UTF-8. *)
Definition byte_order_mark : string :=
  String "239"%char (String "187"%char (String "191"%char EmptyString)).

(** [json.load] on the bytes of a file: the text they encode is one
    value between optional whitespace, and nothing after it. *)
Definition loads (bytes : string) : outcome value :=
  match utf8_decode bytes with
  | Raise UnicodeDecodeError => Raise UnicodeDecodeError
  | decoded =>
      if String.prefix byte_order_mark bytes then Raise JSONDecodeError
      else
        match decoded with
        | Raise e => Raise e
        | Ok text =>
            match parse_value (S (String.length text)) (skip_ws text) with
            | Ok (v, rest) =>
                match skip_ws rest with
                | EmptyString => Ok v
                | String _ _ => Raise JSONDecodeError
                end
            | Raise e => Raise e
            end
        end
  end.

End RefJson.

(** ** Specification-side definitions *)

(** The last [n] records of a log, in the words of the specification. *)
Definition last_records (n : nat) (log : list value) : list value :=
  rev (firstn n (rev log)).

(** A well-formed record (a dictionary) that carries a [mood] field whose
    value equals [Sad]. *)
Definition is_sad_record (entry : value) : bool :=
  match entry with
  | VDict d =>
      match dict_get d "mood" with
      | Some (VStr m) => String.eqb m "Sad"
      | _ => false
      end
  | _ => false
  end.

(** How many of the last five records are sad records. *)
Definition sad_in_window (log : list value) : nat :=
  length (filter (fun entry => is_sad_record entry = true) (last_records 5 log)).

(** The stress check raises its alert: the alert line is what it adds to
    the world. *)
Definition raises_alert (log : list value) (w : world) : Prop :=
  snd (monitor_stress log w) = add_stdout alert_message w.

(** Two characters that are equal, or the upper and the lower case of
    one letter of ASCII. *)
Definition letter_pair (a b : ascii) : bool :=
  let m := nat_of_ascii a in
  let n := nat_of_ascii b in
  (m =? n)%nat
  || ((65 <=? m)%nat && (m <=? 90)%nat && (n =? m + 32)%nat)
  || ((65 <=? n)%nat && (n <=? 90)%nat && (m =? n + 32)%nat).

(** Two strings that differ at most in the case of letters of ASCII: the
    spellings of one mood in the words of the specification. *)
Fixpoint same_letters (s t : string) : bool :=
  match s, t with
  | EmptyString, EmptyString => true
  | String a s', String b t' => letter_pair a b && same_letters s' t'
  | _, _ => false
  end.

(** The fixed mood vocabulary of the specification; the keys of [colors]. *)
Definition vocabulary : list string :=
  ["Happy"; "Sad"; "Fear"; "Angry"; "Surprise"; "Neutral"].

(** [tasks.get(mood)] without a default: the candidate set of a mood. *)
Fixpoint candidates (d : list (string * list string)) (mood : string)
  : option (list string) :=
  match d with
  | [] => None
  | (k, v) :: d' => if String.eqb k mood then Some v else candidates d' mood
  end.

Definition empty_world : world := mkWorld ∅ [] [].

Definition sad_entry : value :=
  VDict [("employee_id", VStr "E1"); ("mood", VStr "Sad");
         ("anonymized_mood", VStr "d34d")].

(** The two fields of a record that reach storage. *)
Definition persisted_record (r : string * string) : value :=
  VDict [("employee_id", VStr (fst r)); ("anonymized_mood", VStr (snd r))].

(** The persisted form of a log: an array of objects with exactly the two
    string fields. *)
Definition persisted (recs : list (string * string)) : value :=
  VList (map persisted_record recs).

(** A well-formed record: a dictionary whose [employee_id] and
    [anonymized_mood] are the strings of [r], whatever else it carries. *)
Definition well_formed_record (entry : value) (r : string * string) : Prop :=
  subscript entry "employee_id" = Ok (VStr (fst r)) /\
  subscript entry "anonymized_mood" = Ok (VStr (snd r)).

(** What the script relies on from the [json] module: the text written for
    a persisted log is not empty and parses back to the same value. *)
Definition codec_round_trips (json_dumps : value -> string)
  (json_loads : string -> outcome value) : Prop :=
  forall recs,
    json_dumps (persisted recs) <> EmptyString /\
    json_loads (json_dumps (persisted recs)) = Ok (persisted recs).

(** The backing file can be written and read back: it is absent, or it
    has both permissions. *)
Definition file_usable (filename : string) (w : world) : bool :=
  match files w !! filename with
  | None => true
  | Some f => readable f && writable f
  end.

(** Two records agree on the fields that are persisted. *)
Definition same_projection (e1 e2 : value) : Prop :=
  subscript e1 "employee_id" = subscript e2 "employee_id" /\
  subscript e1 "anonymized_mood" = subscript e2 "anonymized_mood".

(** The frames the loop processes: up to and including the first one
    after which [q] is pressed. *)
Fixpoint processed {F : Type} (quit : F -> bool) (frames : list F) : list F :=
  match frames with
  | [] => []
  | fr :: frames' => fr :: (if quit fr then [] else processed quit frames')
  end.

Definition file_world (filename : string) (f : file) : world :=
  mkWorld {[ filename := f ]} [] [].

(** ** Sample inputs *)

(** A stand-in for the digest where a statement needs a concrete one. *)
Definition sample_digest (s : string) : string := "sha256:" +:+ s.

Definition sample_log : list value :=
  [ VDict [("employee_id", VStr "E1"); ("mood", VStr "Sad");
           ("anonymized_mood", VStr "d1")];
    VDict [("employee_id", VStr "E2"); ("mood", VStr "Happy");
           ("anonymized_mood", VStr "d2")] ].

(** The same records with other moods and an extra field. *)
Definition sample_log' : list value :=
  [ VDict [("mood", VStr "Angry"); ("employee_id", VStr "E1");
           ("anonymized_mood", VStr "d1"); ("note", VInt 7)];
    VDict [("employee_id", VStr "E2"); ("anonymized_mood", VStr "d2")] ].

Definition sample_recs : list (string * string) := [("E1", "d1"); ("E2", "d2")].



(** A backing file that holds one byte, [0xFF], which starts no
    character in UTF-8. *)
Definition undecodable_world : world :=
  file_world "mood_history.json" (mkFile true true (String "255"%char EmptyString)).

(** A backing file that holds an array of a number with a fraction. *)
Definition fraction_world : world :=
  file_world "mood_history.json" (mkFile true true "[0.5]").

(** A backing file without write permission. *)
Definition read_only_world : world :=
  file_world "mood_history.json" (mkFile true false "[]").

(** ** Text sentiment *)

(** [detect_text_emotion], given [TextBlob(text).sentiment.polarity], a
    Python float. *)
Definition detect_text_emotion (polarity : float) : string :=
  if PrimFloat.ltb 0 polarity then "Happy"
  else if PrimFloat.ltb polarity 0 then "Sad"
  else "Fear".

(** ** Further specification-side definitions *)

(** [c[k]] on a [Counter]: the count of [k], zero when [k] is no key. *)
Fixpoint counter_get (c : list (value * nat)) (k : value) : nat :=
  match c with
  | [] => 0
  | (k', n) :: c' => if key_eq k' k then n else counter_get c' k
  end.

(** The counter so far: string keys, no key twice, every count positive. *)
Definition counter_ok (c : list (value * nat)) : Prop :=
  Forall (fun kn => (exists s, fst kn = VStr s) /\ 0 < snd kn) c /\
  NoDup (map fst c).

(** The guard of the two comprehensions over a history: the record is a
    dictionary with a [mood] field. *)
Definition carries_mood (entry : value) : bool :=
  is_dict entry && has_key "mood" entry.

(** The [mood] fields of the records that carry one, in order. *)
Fixpoint moods_of (log : list value) : list value :=
  match log with
  | [] => []
  | VDict d :: log' =>
      match dict_get d "mood" with
      | Some m => m :: moods_of log'
      | None => moods_of log'
      end
  | _ :: log' => moods_of log'
  end.

(** The record is a dictionary whose [mood] field is the string [s]. *)
Definition mood_is (s : string) (entry : value) : bool :=
  match entry with
  | VDict d =>
      match dict_get d "mood" with
      | Some (VStr m) => String.eqb m s
      | _ => false
      end
  | _ => false
  end.

(** The [mood] field of the record, if it has one, is a string. *)
Definition string_mood (entry : value) : bool :=
  match entry with
  | VDict d =>
      match dict_get d "mood" with
      | Some (VStr _) | None => true
      | Some _ => false
      end
  | _ => true
  end.

(** The [mood] field of the record is a list or a dictionary. *)
Definition unhashable_mood (entry : value) : bool :=
  match entry with
  | VDict d =>
      match dict_get d "mood" with
      | Some m => negb (hashable m)
      | None => false
      end
  | _ => false
  end.

(** The record has both fields that [save_mood_history] reads. *)
Definition projectable (entry : value) : bool :=
  match project entry with
  | Ok _ => true
  | Raise _ => false
  end.

Definition is_list (v : value) : bool :=
  match v with
  | VList _ => true
  | _ => false
  end.

(** The persisted fields of the record that [main] creates for a frame. *)
Definition frame_rec (sha256_hexdigest : string -> string) (employee_id : string)
  (fr : frame) : string * string :=
  (employee_id, anonymize_data sha256_hexdigest (detect_facial_emotion (analysis fr))).

Definition sad_frame : frame := mkFrame ["sad"] 0 false.
Definition calm_entry : value :=
  VDict [("employee_id", VStr "E1"); ("mood", VStr "Happy");
         ("anonymized_mood", VStr "c4lm")].

(** A backing file that holds a JSON object. *)
Definition object_world : world :=
  file_world "mood_history.json" (mkFile true true "{}").

(** ** Objects and references

    [main] holds one list, the history, and hands that same list to
    [save_mood_history], [monitor_stress] and [plot_team_mood]; the
    records are dictionaries that the list refers to.  Here lists and
    dictionaries live in a store and a variable holds a reference, so that
    what one function does to an object is what the next one finds.  The
    functions of the script are embedded a second time on that store,
    statement by statement.  An object that a function builds and drops
    before it returns (a slice, the list of a comprehension, a counter)
    is a value of the embedding and takes no place in the store. *)

Abbreviation loc := nat (only parsing).

(** What a variable, an item of a list or a field of a dictionary holds:
    an immutable value, or a reference to a list or a dictionary. *)
Inductive ref : Type :=
| RNone
| RBool (b : bool)
| RInt (z : Z)
| RFloat (x : float)
| RStr (s : string)
| RObj (l : loc).

Inductive object : Type :=
| OList (items : list ref)
| ODict (fields : list (string * ref)).

(** The store: the object of a location is the one at that index.  A
    reference of a run always has an object; a location outside the
    store is answered like an object of no known type. *)
Abbreviation heap := (list object) (only parsing).

Module Objects.

(** A computation on the store and the world. *)
Definition HM (A : Type) : Type := heap -> world -> outcome A * heap * world.

#[global] Instance HM_ret : MRet HM := fun A a h w => (Ok a, h, w).
#[global] Instance HM_bind : MBind HM := fun A B f m h w =>
  match m h w with
  | (Ok a, h', w') => f a h' w'
  | (Raise e, h', w') => (Raise e, h', w')
  end.

(** An expression that reads the store. *)
Definition read {A : Type} (f : heap -> outcome A) : HM A := fun h w => (f h, h, w).

(** A statement that acts on the world alone. *)
Definition run {A : Type} (m : M A) : HM A := fun h w =>
  let '(r, w') := m w in (r, h, w').

Definition try_except {A : Type} (body : HM A) (catches : exn -> bool)
  (handler : exn -> HM A) : HM A := fun h w =>
  match body h w with
  | (Ok a, h', w') => (Ok a, h', w')
  | (Raise e, h', w') => if catches e then handler e h' w' else (Raise e, h', w')
  end.

Definition heap_of {A : Type} (r : outcome A * heap * world) : heap := snd (fst r).
Definition result_of {A : Type} (r : outcome A * heap * world) : outcome A :=
  fst (fst r).

Definition no_object : exn := TypeError "reference without object".

Fixpoint field_get (fields : list (string * ref)) (k : string) : option ref :=
  match fields with
  | [] => None
  | (k', r) :: fields' => if String.eqb k' k then Some r else field_get fields' k
  end.

(** [isinstance(r, dict)] *)
Definition is_dict (h : heap) (r : ref) : bool :=
  match r with
  | RObj l =>
      match h !! l with
      | Some (ODict _) => true
      | _ => false
      end
  | _ => false
  end.

(** [k in r], behind [isinstance(r, dict)]. *)
Definition has_key (h : heap) (k : string) (r : ref) : bool :=
  match r with
  | RObj l =>
      match h !! l with
      | Some (ODict fields) => bool_decide (is_Some (field_get fields k))
      | _ => false
      end
  | _ => false
  end.

(** [r[k]] for a string [k]. *)
Definition subscript (h : heap) (r : ref) (k : string) : outcome ref :=
  match r with
  | RObj l =>
      match h !! l with
      | Some (ODict fields) =>
          match field_get fields k with
          | Some x => Ok x
          | None => Raise (KeyError k)
          end
      | Some (OList _) =>
          Raise (TypeError "list indices must be integers or slices, not str")
      | None => Raise no_object
      end
  | RStr _ => Raise (TypeError "string indices must be integers, not 'str'")
  | RNone => Raise (TypeError "'NoneType' object is not subscriptable")
  | RBool _ => Raise (TypeError "'bool' object is not subscriptable")
  | RInt _ => Raise (TypeError "'int' object is not subscriptable")
  | RFloat _ => Raise (TypeError "'float' object is not subscriptable")
  end.

Definition characters (s : string) : list ref :=
  map (fun c => RStr (String c EmptyString)) (list_ascii_of_string s).

(** The elements a [for] loop over [r[i:]] visits.  A dictionary takes
    no slice as a key: [TypeError], and [KeyError] from Python 3.12
    on. *)
Definition slice_items (h : heap) (i : Z) (r : ref) : outcome (list ref) :=
  match r with
  | RObj l =>
      match h !! l with
      | Some (OList items) => Ok (slice_from i items)
      | Some (ODict _) => Raise (TypeError "unhashable type: 'slice'")
      | None => Raise no_object
      end
  | RStr s => Ok (slice_from i (characters s))
  | RNone => Raise (TypeError "'NoneType' object is not subscriptable")
  | RBool _ => Raise (TypeError "'bool' object is not subscriptable")
  | RInt _ => Raise (TypeError "'int' object is not subscriptable")
  | RFloat _ => Raise (TypeError "'float' object is not subscriptable")
  end.

(** The elements a [for] loop over [r] visits. *)
Definition iterate (h : heap) (r : ref) : outcome (list ref) :=
  match r with
  | RObj l =>
      match h !! l with
      | Some (OList items) => Ok items
      | Some (ODict fields) => Ok (map (fun kv => RStr (fst kv)) fields)
      | None => Raise no_object
      end
  | RStr s => Ok (characters s)
  | RNone => Raise (TypeError "'NoneType' object is not iterable")
  | RBool _ => Raise (TypeError "'bool' object is not iterable")
  | RInt _ => Raise (TypeError "'int' object is not iterable")
  | RFloat _ => Raise (TypeError "'float' object is not iterable")
  end.

(** Truth value, as [if not r] tests it. *)
Definition truthy (h : heap) (r : ref) : bool :=
  match r with
  | RNone => false
  | RBool b => b
  | RInt z => negb (z =? 0)%Z
  | RFloat x => negb (PrimFloat.eqb x 0)
  | RStr s => negb (String.eqb s EmptyString)
  | RObj l =>
      match h !! l with
      | Some (OList items) => negb (bool_decide (items = []))
      | Some (ODict fields) => negb (bool_decide (fields = []))
      | None => true
      end
  end.

(** [r == s] for a string literal [s]. *)
Definition eq_str (r : ref) (s : string) : bool :=
  match r with
  | RStr t => String.eqb t s
  | _ => false
  end.

(** The value of an immutable object; a list or a dictionary has
    none. *)
Definition atom (r : ref) : option value :=
  match r with
  | RNone => Some VNone
  | RBool b => Some (VBool b)
  | RInt z => Some (VInt z)
  | RFloat x => Some (VFloat x)
  | RStr s => Some (VStr s)
  | RObj _ => None
  end.

(** A dictionary display [{k: r, ...}]: a new object, at the next
    location of the store. *)
Definition new_dict (fields : list (string * ref)) : HM ref := fun h w =>
  (Ok (RObj (length h)), h ++ [ODict fields], w).

(** [r.append(x)]: the one statement of the script that changes an
    object. *)
Definition list_append (r x : ref) : HM value := fun h w =>
  match r with
  | RObj l =>
      match h !! l with
      | Some (OList items) => (Ok VNone, <[l := OList (items ++ [x])]> h, w)
      | Some (ODict _) =>
          (Raise (AttributeError "'dict' object has no attribute 'append'"), h, w)
      | None => (Raise no_object, h, w)
      end
  | RStr _ => (Raise (AttributeError "'str' object has no attribute 'append'"), h, w)
  | RNone =>
      (Raise (AttributeError "'NoneType' object has no attribute 'append'"), h, w)
  | RBool _ => (Raise (AttributeError "'bool' object has no attribute 'append'"), h, w)
  | RInt _ => (Raise (AttributeError "'int' object has no attribute 'append'"), h, w)
  | RFloat _ => (Raise (AttributeError "'float' object has no attribute 'append'"), h, w)
  end.

(** The value that the objects reachable from [r] make up, as
    [json.dump] walks them; there is none when they form a cycle.
    [fuel] bounds the depth: a walk deeper than the number of objects
    of the store meets an object twice. *)
Fixpoint denote (fuel : nat) (h : heap) (r : ref) : option value :=
  match r with
  | RNone => Some VNone
  | RBool b => Some (VBool b)
  | RInt z => Some (VInt z)
  | RFloat x => Some (VFloat x)
  | RStr s => Some (VStr s)
  | RObj l =>
      match fuel with
      | O => None
      | S fuel' =>
          match h !! l with
          | Some (OList items) => VList <$> mapM (denote fuel' h) items
          | Some (ODict fields) =>
              VDict <$> mapM (fun kv => pair (fst kv) <$> denote fuel' h (snd kv)) fields
          | None => None
          end
      end
  end.

Definition denote_fields (h : heap) (fields : list (string * ref)) : option value :=
  VDict <$> mapM (fun kv => pair (fst kv) <$> denote (length h) h (snd kv)) fields.

(** ** Stress monitor *)

(** [[entry["mood"] for entry in mood_history[-5:]
      if isinstance(entry, dict) and "mood" in entry]] *)
Definition recent_moods (h : heap) (mood_history : ref) : outcome (list ref) :=
  entries ← slice_items h (-5) mood_history;
  comprehension (fun entry => subscript h entry "mood")
    (filter (fun entry => is_dict h entry && has_key h "mood" entry = true) entries).

(** [sum(1 for mood in recent_moods if mood == "Sad")] *)
Definition stressed_count (moods : list ref) : nat :=
  list_sum (map (fun _ => 1) (filter (fun mood => eq_str mood "Sad" = true) moods)).

Definition monitor_stress (mood_history : ref) : HM value :=
  moods ← read (fun h => recent_moods h mood_history);
  if (stress_threshold <=? stressed_count moods)%nat
  then run (print alert_message)
  else mret VNone.

(** ** Reporter *)

(** The key that [Counter] makes of [entry["mood"]]; a list or a
    dictionary is no key. *)
Definition mood_key (h : heap) (entry : ref) : outcome value :=
  mood ← subscript h entry "mood";
  match atom mood with
  | Some v => Ok v
  | None => Raise (TypeError "unhashable type")
  end.

(** [Counter(entry["mood"] for entry in mood_history
             if isinstance(entry, dict) and "mood" in entry)] *)
Definition mood_counts (h : heap) (entries : list ref) : outcome (list (value * nat)) :=
  moods ← comprehension (mood_key h)
            (filter (fun entry => is_dict h entry && has_key h "mood" entry = true)
               entries);
  Counter [] moods.

Definition plot_team_mood (mood_history : ref) : HM value :=
  filled ← read (fun h => Ok (truthy h mood_history));
  if negb filled
  then run (print "⚠️ No mood history available to plot.")
  else
    entries ← read (fun h => iterate h mood_history);
    counts ← read (fun h => mood_counts h entries);
    if bool_decide (counts = [])
    then run (print "⚠️ No valid mood data available for plotting.")
    else
      run (fun w => (Ok VNone,
                     add_chart (mkChart (map fst counts) (map snd counts)
                                        (map (fun kc => color_of (fst kc)) counts)) w)).

(** ** History store and main loop *)

Section ObjectScript.

(** The text [json.dump(obj, file, indent=4)] writes. *)
Variable json_dumps : value -> string.
(** The text [json.dump] has written when it meets a cycle among
    the objects it walks and raises [ValueError]. *)
Variable json_dump_partial : heap -> list (list (string * ref)) -> string.
(** [hashlib.sha256(bytes).hexdigest()] *)
Variable sha256_hexdigest : string -> string.

(** [{"employee_id": entry["employee_id"],
      "anonymized_mood": entry["anonymized_mood"]}], a dictionary
    that lives until the dump is done. *)
Definition project (h : heap) (entry : ref) : outcome (list (string * ref)) :=
  e ← subscript h entry "employee_id";
  a ← subscript h entry "anonymized_mood";
  mret [("employee_id", e); ("anonymized_mood", a)].

(** [with open(filename, "w") as file:
       json.dump(filtered_history, file, indent=4)] *)
Definition json_dump (filtered_history : list (list (string * ref)))
  (filename : string) : HM value := fun h w =>
  match mapM (denote_fields h) filtered_history with
  | Some records => run (write_text filename (json_dumps (VList records))) h w
  | None =>
      match write_text filename (json_dump_partial h filtered_history) w with
      | (Ok _, w') => (Raise (ValueError "Circular reference detected"), h, w')
      | (Raise e, w') => (Raise e, h, w')
      end
  end.

(** The suite of the [try] statement of [save_mood_history]. *)
Definition save_body (mood_history : ref) (filename : string) : HM value :=
  entries ← read (fun h => iterate h mood_history);
  filtered_history ← read (fun h => comprehension (project h) entries);
  _ ← json_dump filtered_history filename;
  run (print "✅ Mood history successfully updated with anonymized data!").

Definition save_mood_history (mood_history : ref) (filename : string) : HM value :=
  try_except (save_body mood_history filename) Exception
    (fun e => run (print (save_error e))).

(** The fields of the record that [main] builds for a mood. *)
Definition mood_entry (employee_id detected_mood : string) : list (string * ref) :=
  [("employee_id", RStr employee_id);
   ("mood", RStr detected_mood);
   ("anonymized_mood", RStr (anonymize_data sha256_hexdigest detected_mood))].

(** The body of the [while True] loop after a frame was read. *)
Definition main_step (employee_id : string) (fr : frame) (mood_history : ref)
  : HM value :=
  let detected_mood := detect_facial_emotion (analysis fr) in
  mood_entry ← new_dict (mood_entry employee_id detected_mood);
  _ ← list_append mood_history mood_entry;
  _ ← save_mood_history mood_history history_file;
  _ ← monitor_stress mood_history;
  _ ← run (print ("🧐 Employee: " +:+ employee_id
                  +:+ " | Detected Mood: " +:+ detected_mood));
  run (print ("🎯 Recommended Task: " +:+ recommend_task (draw fr) detected_mood)).

(** The loop over the frames the camera delivers; it ends when the
    camera has no more frames or [q] is pressed. *)
Fixpoint main_loop (employee_id : string) (frames : list frame)
  (mood_history : ref) : HM value :=
  match frames with
  | [] => mret VNone
  | fr :: frames' =>
      _ ← main_step employee_id fr mood_history;
      if key_q fr then mret VNone
      else main_loop employee_id frames' mood_history
  end.

(** The loop, and the chart after it. *)
Definition main_session (employee_id : string) (frames : list frame)
  (mood_history : ref) : HM value :=
  _ ← main_loop employee_id frames mood_history;
  plot_team_mood mood_history.

End ObjectScript.

End Objects.

(** The moods of the frames that the loop processes. *)
Definition session_moods (frames : list frame) : list string :=
  map (fun fr => detect_facial_emotion (analysis fr)) (processed key_q frames).

(** [r] refers to a record of [mood] as [main] builds it: a dictionary
    with the three fields, [anonymized_mood] being the digest of
    [mood]. *)
Definition mood_record (sha256_hexdigest : string -> string) (employee_id : string)
  (h : heap) (r : ref) (mood : string) : Prop :=
  exists l,
    r = RObj l /\
    h !! l = Some (ODict [("employee_id", RStr employee_id);
                          ("mood", RStr mood);
                          ("anonymized_mood", RStr (anonymize_data sha256_hexdigest mood))]).


(** Every object of [h] but the one at [a] is in [h'] as it is in [h]. *)
Definition unchanged_but (a : loc) (h h' : heap) : Prop :=
  forall l o, l <> a -> h !! l = Some o -> h' !! l = Some o.

(** A store with a history of one stored record, which has no [mood]
    field, and a list that contains itself. *)
Definition sample_heap : heap :=
  [ ODict [("employee_id", RStr "E1"); ("anonymized_mood", RStr "d1")];
    OList [RObj 0];
    OList [RObj 2] ].

Definition sample_partial (h : heap) (filtered : list (list (string * ref))) : string :=
  "[".

(** A frame without a face, after which [q] is pressed. *)
Definition quit_frame : frame := mkFrame [] 1 true.

(** * Properties *)

(** ** Stress monitor *)

Lemma slice_from_last (log : list value) :
  slice_from (-5) log = drop (length log - 5) log.
Proof.
  unfold slice_from. simpl. f_equal. lia.
Qed.

Lemma last_records_drop (n : nat) (log : list value) :
  last_records n log = drop (length log - n) log.
Proof.
  unfold last_records. rewrite firstn_rev, rev_involutive. reflexivity.
Qed.

(** The comprehension of [monitor_stress] never raises: the guard admits
    only dictionaries that have the key. *)
Lemma guarded_moods (l : list value) :
  exists moods,
    comprehension (fun entry => subscript entry "mood")
      (filter (fun entry => is_dict entry && has_key "mood" entry = true) l) = Ok moods
    /\ stressed_count moods = length (filter (fun entry => is_sad_record entry = true) l)
    /\ length moods = length (filter (fun entry => is_dict entry && has_key "mood" entry = true) l).
Proof.
  induction l as [|e l IH].
  - exists []. repeat split.
  - destruct IH as (moods & Hc & Hn & Hl).
    destruct e as [| b | z | x | s | l0 | d];
      try (rewrite filter_cons_False by (simpl; congruence);
           rewrite (filter_cons_False (fun entry => is_sad_record entry = true))
             by (simpl; congruence);
           exists moods; repeat split; assumption).
    destruct (dict_get d "mood") as [m|] eqn:Hm.
    + rewrite filter_cons_True
        by (simpl; apply bool_decide_eq_true; rewrite Hm; eauto).
      simpl comprehension. rewrite Hm, Hc. exists (m :: moods).
      split; [reflexivity|]. split; [| simpl; lia].
      unfold stressed_count in *.
      destruct (eq_str m "Sad") eqn:Hs.
      * rewrite filter_cons_True by assumption.
        rewrite (filter_cons_True (fun entry => is_sad_record entry = true)).
        -- simpl. rewrite <- Hn. reflexivity.
        -- simpl. rewrite Hm. destruct m; simpl in Hs; try discriminate. exact Hs.
      * rewrite filter_cons_False by congruence.
        rewrite (filter_cons_False (fun entry => is_sad_record entry = true)).
        -- exact Hn.
        -- simpl. rewrite Hm. destruct m; simpl in Hs; congruence.
    + rewrite filter_cons_False.
      2:{ simpl. intros H. apply bool_decide_eq_true in H. rewrite Hm in H.
          destruct H as [? H]. discriminate. }
      rewrite (filter_cons_False (fun entry => is_sad_record entry = true))
        by (simpl; rewrite Hm; congruence).
      exists moods. repeat split; assumption.
Qed.

Lemma add_stdout_neq (line : string) (w : world) : add_stdout line w <> w.
Proof.
  intros H. apply (f_equal stdout) in H. simpl in H.
  apply (f_equal (@length string)) in H. rewrite length_app in H. simpl in H. lia.
Qed.

(** What [monitor_stress] does, in one equation. *)
Lemma monitor_stress_eq (log : list value) (w : world) :
  monitor_stress log w =
  (Ok VNone, if (3 <=? sad_in_window log)%nat then add_stdout alert_message w else w).
Proof.
  unfold monitor_stress, recent_moods, sad_in_window.
  rewrite last_records_drop, slice_from_last.
  destruct (guarded_moods (drop (length log - 5) log)) as (moods & Hc & Hn & _).
  unfold mbind, M_bind, lift. rewrite Hc, Hn. unfold stress_threshold.
  destruct (3 <=? _)%nat; reflexivity.
Qed.

Lemma sad_in_window_slice (log : list value) :
  sad_in_window (slice_from (-5) log) = sad_in_window log.
Proof.
  unfold sad_in_window. rewrite slice_from_last, !last_records_drop.
  rewrite length_drop, drop_drop. do 2 f_equal. f_equal. lia.
Qed.

(** C1: the stress check never raises, and it prints the alert exactly
    when at least 3 of the last 5 records of the log (all of them when
    there are fewer than 5) are dictionaries with a [mood] field equal to
    [Sad]; otherwise it leaves the world as it was.  An empty log raises
    no alert. *)
Theorem monitor_stress_alert_iff (log : list value) (w : world) :
  fst (monitor_stress log w) = Ok VNone /\
  (raises_alert log w <-> 3 <= sad_in_window log) /\
  (snd (monitor_stress log w) = w <-> sad_in_window log < 3) /\
  last_records 5 log = drop (length log - 5) log /\
  ~ raises_alert [] w.
Proof.
  unfold raises_alert. rewrite !monitor_stress_eq.
  split; [reflexivity|]. split; [|split; [|split]].
  - cbn [fst snd]. destruct (3 <=? sad_in_window log)%nat eqn:H.
    + apply Nat.leb_le in H. split; intros; [exact H | reflexivity].
    + apply Nat.leb_gt in H. split; [|lia].
      intros E. symmetry in E. apply add_stdout_neq in E. contradiction.
  - cbn [fst snd]. destruct (3 <=? sad_in_window log)%nat eqn:H.
    + apply Nat.leb_le in H. split; [|lia].
      intros E. apply add_stdout_neq in E. contradiction.
    + apply Nat.leb_gt in H. split; intros; [exact H | reflexivity].
  - apply last_records_drop.
  - cbn. intros E. symmetry in E. apply add_stdout_neq in E. contradiction.
Qed.

(** C5, as stated, fails: on a log of three sad records the stress check
    itself prints the alert line, and it returns [None] there as it does
    on the empty log, so the caller receives no signal. *)
Lemma monitor_stress_prints_itself :
  stdout empty_world = [] /\
  stdout (snd (monitor_stress [sad_entry; sad_entry; sad_entry] empty_world))
    = [alert_message] /\
  fst (monitor_stress [sad_entry; sad_entry; sad_entry] empty_world) = Ok VNone /\
  fst (monitor_stress [] empty_world) = Ok VNone.
Proof. repeat split. Qed.

(** C5, amended: the stress check returns [None] on every log, touches
    neither the files nor the charts, and prints the alert line itself
    when the count reaches the threshold; what it does is a function of
    the last 5 records of the log alone. *)
Theorem monitor_stress_effect (log : list value) (w : world) :
  fst (monitor_stress log w) = Ok VNone /\
  files (snd (monitor_stress log w)) = files w /\
  charts (snd (monitor_stress log w)) = charts w /\
  stdout (snd (monitor_stress log w))
    = stdout w ++ (if (3 <=? sad_in_window log)%nat then [alert_message] else []) /\
  monitor_stress log w = monitor_stress (slice_from (-5) log) w.
Proof.
  rewrite !monitor_stress_eq, sad_in_window_slice.
  destruct (3 <=? sad_in_window log)%nat; cbn [fst snd files charts stdout add_stdout];
    rewrite ?app_nil_r; repeat split; reflexivity.
Qed.

(** ** Task recommender *)

Lemma table_get_candidates (d : list (string * list string)) (k : string)
  (default : list string) :
  table_get d k default = match candidates d k with
                          | Some v => v
                          | None => default
                          end.
Proof.
  induction d as [|[k' v] d IH]; simpl; [reflexivity|].
  destruct (String.eqb k' k); [reflexivity | exact IH].
Qed.

Lemma candidates_In (d : list (string * list string)) (k : string) (v : list string) :
  candidates d k = Some v -> In (k, v) d.
Proof.
  induction d as [|[k' v'] d IH]; simpl; [discriminate|].
  destruct (String.eqb k' k) eqn:E.
  - apply String.eqb_eq in E. intros [= ->]. left. congruence.
  - intros H. right. auto.
Qed.

Lemma random_choice_In (draw : nat) (seq : list string) :
  seq <> [] -> In (random_choice draw seq) seq.
Proof.
  intros H. unfold random_choice. apply nth_In.
  apply Nat.mod_upper_bound. destruct seq; [contradiction | simpl; lia].
Qed.

Lemma recommend_task_eq (draw : nat) (mood : string) :
  recommend_task draw mood =
  match candidates tasks (capitalize mood) with
  | Some cands => random_choice draw cands
  | None => no_suggestion
  end.
Proof.
  unfold recommend_task. rewrite table_get_candidates.
  destruct (candidates tasks (capitalize mood)); [reflexivity|].
  unfold random_choice. simpl length. rewrite Nat.mod_1_r. reflexivity.
Qed.

Lemma tasks_candidates_ok (k : string) (cands : list string) :
  In (k, cands) tasks ->
  In k ["Happy"; "Sad"; "Fear"; "Angry"; "Surprise"] /\
  cands <> [] /\ ~ In no_suggestion cands.
Proof.
  unfold tasks. simpl.
  intros [H|[H|[H|[H|[H|[]]]]]]; inversion H; subst; clear H;
    (split; [tauto|]); (split; [discriminate|]);
    simpl; intros H; repeat (destruct H as [H|H]; [discriminate|]); exact H.
Qed.

(** The vocabulary of the specification is the set of keys of [colors]. *)
Lemma vocabulary_colors (mood : string) :
  In mood vocabulary <-> In mood (map fst colors).
Proof.
  unfold vocabulary, colors. simpl. tauto.
Qed.

(** C4, as stated, fails: [Neutral] is in the vocabulary, the table of
    tasks has no candidate set for it, and it maps to the fallback. *)
Lemma recommend_task_neutral_fallback :
  In "Neutral" vocabulary /\
  candidates tasks "Neutral" = None /\
  recommend_task 0 "Neutral" = no_suggestion.
Proof.
  split; [|split]; [|reflexivity|reflexivity].
  unfold vocabulary. simpl. tauto.
Qed.

(** C4, amended: a mood whose capitalized form is one of [Happy], [Sad],
    [Fear], [Angry], [Surprise] gets a member of that mood's non-empty
    candidate set, which is never the fallback; every other string,
    [Neutral] included, gets the fallback. *)
Theorem recommend_task_candidates (draw : nat) (mood : string) :
  (forall cands, candidates tasks (capitalize mood) = Some cands ->
     cands <> [] /\ In (recommend_task draw mood) cands /\
     recommend_task draw mood <> no_suggestion) /\
  (candidates tasks (capitalize mood) = None ->
     recommend_task draw mood = no_suggestion) /\
  (In (capitalize mood) ["Happy"; "Sad"; "Fear"; "Angry"; "Surprise"] <->
     candidates tasks (capitalize mood) <> None).
Proof.
  rewrite recommend_task_eq. split; [|split].
  - intros cands H. rewrite H.
    destruct (tasks_candidates_ok _ _ (candidates_In _ _ _ H)) as (_ & Hne & Hno).
    split; [exact Hne|]. split; [apply random_choice_In; exact Hne|].
    intros E. apply Hno. rewrite <- E. apply random_choice_In. exact Hne.
  - intros H. rewrite H. reflexivity.
  - split.
    + simpl. intros [H|[H|[H|[H|[H|[]]]]]]; rewrite <- H; discriminate.
    + destruct (candidates tasks (capitalize mood)) as [c|] eqn:H; [|congruence].
      intros _. apply (tasks_candidates_ok _ _ (candidates_In _ _ _ H)).
Qed.

(** A mood in another case, and a draw beyond the length of the
    candidate set. *)
Lemma recommend_task_candidates_witness :
  In (recommend_task 4 "sAD") ["Take a break"; "Listen to music"; "Talk to a friend"].
Proof.
  exact (proj1 (proj2 (proj1 (recommend_task_candidates 4 "sAD") _ eq_refl))).
Defined.

Lemma to_lower_idempotent (c : ascii) : to_lower (to_lower c) = to_lower c.
Proof.
  destruct c as [[] [] [] [] [] [] [] []]; reflexivity.
Qed.

Lemma to_upper_idempotent (c : ascii) : to_upper (to_upper c) = to_upper c.
Proof.
  destruct c as [[] [] [] [] [] [] [] []]; reflexivity.
Qed.

Lemma lower_idempotent (s : string) : lower (lower s) = lower s.
Proof.
  induction s as [|c s IH]; simpl; [reflexivity|].
  rewrite IH, to_lower_idempotent. reflexivity.
Qed.

Lemma capitalize_idempotent (s : string) : capitalize (capitalize s) = capitalize s.
Proof.
  destruct s as [|c s]; simpl; [reflexivity|].
  rewrite lower_idempotent, to_upper_idempotent. reflexivity.
Qed.

(** A property of pairs of characters that holds of the 256 * 256 pairs
    holds of every pair. *)
Lemma all_char_pairs (P : ascii -> ascii -> bool) :
  forallb (fun m => forallb (fun n => P (ascii_of_nat m) (ascii_of_nat n)) (seq 0 256))
    (seq 0 256) = true ->
  forall a b, P a b = true.
Proof.
  intros H a b.
  rewrite <- (ascii_nat_embedding a), <- (ascii_nat_embedding b).
  rewrite forallb_forall in H.
  assert (Ha : In (nat_of_ascii a) (seq 0 256))
    by (apply in_seq; pose proof (nat_ascii_bounded a); lia).
  specialize (H _ Ha). rewrite forallb_forall in H.
  apply H. apply in_seq. pose proof (nat_ascii_bounded b). lia.
Qed.

Lemma letter_pair_case (a b : ascii) :
  letter_pair a b = true -> to_upper a = to_upper b /\ to_lower a = to_lower b.
Proof.
  intros H.
  pose proof (all_char_pairs
                (fun a b => implb (letter_pair a b)
                              (Ascii.eqb (to_upper a) (to_upper b)
                               && Ascii.eqb (to_lower a) (to_lower b)))
                ltac:(vm_compute; reflexivity) a b) as Hp.
  cbv beta in Hp. rewrite H in Hp. cbn [implb] in Hp.
  apply andb_prop in Hp. destruct Hp as [Hu Hl].
  split; apply Ascii.eqb_eq; assumption.
Qed.

Lemma upper_letter_pair (a b : ascii) :
  to_upper a = to_upper b -> letter_pair a b = true.
Proof.
  intros H.
  pose proof (all_char_pairs
                (fun a b => implb (Ascii.eqb (to_upper a) (to_upper b)) (letter_pair a b))
                ltac:(vm_compute; reflexivity) a b) as Hp.
  cbv beta in Hp. apply Ascii.eqb_eq in H. rewrite H in Hp. exact Hp.
Qed.

Lemma lower_letter_pair (a b : ascii) :
  to_lower a = to_lower b -> letter_pair a b = true.
Proof.
  intros H.
  pose proof (all_char_pairs
                (fun a b => implb (Ascii.eqb (to_lower a) (to_lower b)) (letter_pair a b))
                ltac:(vm_compute; reflexivity) a b) as Hp.
  cbv beta in Hp. apply Ascii.eqb_eq in H. rewrite H in Hp. exact Hp.
Qed.

Lemma same_letters_lower (s t : string) :
  same_letters s t = true <-> lower s = lower t.
Proof.
  revert t. induction s as [|a s IH]; intros [|b t]; cbn [same_letters lower];
    try (split; discriminate); [split; reflexivity|].
  rewrite andb_true_iff, IH. split.
  - intros [Hp Hl]. apply letter_pair_case in Hp. destruct Hp as [_ Hp].
    rewrite Hp, Hl. reflexivity.
  - intros [= Hp Hl]. split; [apply lower_letter_pair; exact Hp | exact Hl].
Qed.

(** In the embedding, two strings have the same capitalized form exactly
    when they differ in the case of letters at most. *)
Lemma same_letters_capitalize (s t : string) :
  same_letters s t = true <-> capitalize s = capitalize t.
Proof.
  destruct s as [|a s], t as [|b t]; cbn [same_letters capitalize];
    try (split; discriminate); [split; reflexivity|].
  rewrite andb_true_iff, same_letters_lower. split.
  - intros [Hp Hl]. apply letter_pair_case in Hp. destruct Hp as [Hp _].
    rewrite Hp, Hl. reflexivity.
  - intros [= Hp Hl]. split; [apply upper_letter_pair; exact Hp | exact Hl].
Qed.

(** The keys of [tasks] are in the canonical case. *)
Lemma tasks_keys_capitalized (key : string) (cands : list string) :
  In (key, cands) tasks -> capitalize key = key /\ candidates tasks key = Some cands.
Proof.
  unfold tasks. simpl.
  intros [H|[H|[H|[H|[H|[]]]]]]; inversion H; subst; clear H; split; reflexivity.
Qed.

(** C9: [recommend_task] looks the mood up under its capitalized form,
    the canonical case: its result is that of the capitalized mood, and
    two spellings of a mood that differ in the case of letters only are
    looked up alike.  Every spelling of a key of [tasks], in whatever
    letter case, is normalized to the key and gets a member of the
    candidate set of the key; [happy] and [Happy] both get a member of the
    candidate set of [Happy].  An ASCII mood that is a spelling of no key
    gets exactly the fallback, as [unknown-mood] does. *)
Theorem recommend_task_normalizes (draw : nat) :
  (forall mood, recommend_task draw mood = recommend_task draw (capitalize mood)) /\
  capitalize "happy" = "Happy" /\
  candidates tasks "Happy"
    = Some ["Collaborate on a new project"; "Share positivity with the team"] /\
  In (recommend_task draw "happy")
     ["Collaborate on a new project"; "Share positivity with the team"] /\
  In (recommend_task draw "Happy")
     ["Collaborate on a new project"; "Share positivity with the team"] /\
  recommend_task draw "unknown-mood" = "No suggestion available" /\
  (forall m1 m2, same_letters m1 m2 = true ->
     capitalize m1 = capitalize m2 /\ recommend_task draw m1 = recommend_task draw m2) /\
  (forall mood key cands, In (key, cands) tasks -> same_letters mood key = true ->
     capitalize mood = key /\ In (recommend_task draw mood) cands) /\
  (forall mood, isascii mood = true ->
     (forall key cands, In (key, cands) tasks -> same_letters mood key = false) ->
     recommend_task draw mood = "No suggestion available").
Proof.
  assert (Hin : forall m cands, candidates tasks (capitalize m) = Some cands ->
                  cands <> [] -> In (recommend_task draw m) cands).
  { intros m cands Hc Hne. rewrite recommend_task_eq, Hc.
    apply random_choice_In. exact Hne. }
  split; [|split; [|split; [|split; [|split; [|split; [|split; [|split]]]]]]].
  - intros mood. unfold recommend_task. rewrite capitalize_idempotent. reflexivity.
  - reflexivity.
  - reflexivity.
  - apply Hin; [reflexivity | discriminate].
  - apply Hin; [reflexivity | discriminate].
  - rewrite recommend_task_eq. reflexivity.
  - intros m1 m2 H. apply same_letters_capitalize in H. split; [exact H|].
    unfold recommend_task. rewrite H. reflexivity.
  - intros mood key cands Hk H.
    destruct (tasks_keys_capitalized _ _ Hk) as [Hcap Hc].
    apply same_letters_capitalize in H. rewrite Hcap in H. split; [exact H|].
    apply Hin; [rewrite H; exact Hc|].
    apply (tasks_candidates_ok _ _ Hk).
  - intros mood _ Hno. rewrite recommend_task_eq.
    destruct (candidates tasks (capitalize mood)) as [cands|] eqn:Hc; [|reflexivity].
    apply candidates_In in Hc.
    destruct (tasks_keys_capitalized _ _ Hc) as [Hcap _].
    assert (Hs : same_letters mood (capitalize mood) = true)
      by (apply same_letters_capitalize; symmetry; apply capitalize_idempotent).
    rewrite (Hno _ _ Hc) in Hs. discriminate.
Qed.

(** ** History store *)

Section Store.

Variable json_dumps : value -> string.
Variable json_loads : string -> outcome value.
Variable sha256_hexdigest : string -> string.

Lemma write_text_raise (filename text : string) (w w1 : world) (e : exn) :
  write_text filename text w = (Raise e, w1) -> w1 = w.
Proof.
  unfold write_text. destruct (files w !! filename) as [f|]; [|discriminate].
  destruct (writable f); [discriminate|]. intros [= _ <-]. reflexivity.
Qed.

Lemma write_text_ok (filename text : string) (w : world) :
  file_usable filename w = true ->
  exists f,
    write_text filename text w = (Ok VNone, set_files (<[filename := f]> (files w)) w)
    /\ readable f = true /\ data f = text.
Proof.
  unfold file_usable, write_text. destruct (files w !! filename) as [f|].
  - intros H. apply andb_prop in H. destruct H as [Hr Hw]. rewrite Hw.
    eexists. split; [reflexivity|]. split; [exact Hr | reflexivity].
  - intros _. eexists. split; [reflexivity|]. split; reflexivity.
Qed.

Lemma save_body_eq (log : list value) (filename : string) (w : world) :
  save_body json_dumps log filename w =
  match comprehension project log with
  | Ok recs =>
      match write_text filename (json_dumps (VList recs)) w with
      | (Ok _, w') =>
          (Ok VNone,
           add_stdout "✅ Mood history successfully updated with anonymized data!" w')
      | (Raise e, w') => (Raise e, w')
      end
  | Raise e => (Raise e, w)
  end.
Proof.
  unfold save_body, mbind, M_bind, lift, print.
  destruct (comprehension project log); [|reflexivity].
  destruct (write_text _ _ w) as [[?|?] ?]; reflexivity.
Qed.

Lemma save_body_raise (log : list value) (filename : string) (w w1 : world) (e : exn) :
  save_body json_dumps log filename w = (Raise e, w1) -> w1 = w.
Proof.
  rewrite save_body_eq. destruct (comprehension project log).
  - destruct (write_text _ _ w) as [[?|e'] w'] eqn:Hw; [discriminate|].
    intros [= _ <-]. eapply write_text_raise. exact Hw.
  - intros [= _ <-]. reflexivity.
Qed.

Lemma save_mood_history_eq (log : list value) (filename : string) (w : world) :
  save_mood_history json_dumps log filename w =
  match save_body json_dumps log filename w with
  | (Ok v, w') => (Ok v, w')
  | (Raise e, w') => (Ok VNone, add_stdout (save_error e) w')
  end.
Proof. reflexivity. Qed.

Lemma save_mood_history_returns (log : list value) (filename : string) (w : world) :
  fst (save_mood_history json_dumps log filename w) = Ok VNone.
Proof.
  rewrite save_mood_history_eq, save_body_eq.
  destruct (comprehension project log); [|reflexivity].
  destruct (write_text _ _ w) as [[?|?] ?]; reflexivity.
Qed.

Lemma project_well_formed (entry : value) (r : string * string) :
  well_formed_record entry r -> project entry = Ok (persisted_record r).
Proof.
  intros [He Ha]. unfold project, mbind, outcome_bind. rewrite He, Ha. reflexivity.
Qed.

Lemma comprehension_well_formed (log : list value) (recs : list (string * string)) :
  Forall2 well_formed_record log recs ->
  comprehension project log = Ok (map persisted_record recs).
Proof.
  induction 1 as [|entry r log recs H _ IH]; simpl; [reflexivity|].
  rewrite (project_well_formed _ _ H), IH. reflexivity.
Qed.

Lemma project_same (e1 e2 : value) :
  same_projection e1 e2 -> project e1 = project e2.
Proof.
  intros [He Ha]. unfold project. rewrite He, Ha. reflexivity.
Qed.

Lemma comprehension_same (l1 l2 : list value) :
  Forall2 same_projection l1 l2 ->
  comprehension project l1 = comprehension project l2.
Proof.
  induction 1 as [|e1 e2 l1 l2 H _ IH]; simpl; [reflexivity|].
  rewrite (project_same _ _ H), IH. reflexivity.
Qed.

(** [load_mood_history], case by case. *)
Lemma load_missing (filename : string) (w : world) :
  files w !! filename = None ->
  load_mood_history json_loads filename w = (Ok (VList []), w).
Proof.
  intros H. unfold load_mood_history, mbind, M_bind, os_path_exists.
  rewrite H. rewrite bool_decide_eq_false_2; [reflexivity|].
  intros [? ?]. discriminate.
Qed.

Lemma load_present (filename : string) (w : world) (f : file) :
  files w !! filename = Some f ->
  load_mood_history json_loads filename w =
  if (String.length (data f) =? 0)%nat then (Ok (VList []), w)
  else if readable f then
    match json_loads (data f) with
    | Ok v => (Ok v, w)
    | Raise e =>
        if is_JSONDecodeError e
        then (Ok (VList []), add_stdout corrupted_warning w)
        else (Raise e, w)
    end
  else (Raise (OSError "[Errno 13] Permission denied"), w).
Proof.
  intros H.
  unfold load_mood_history, mbind, M_bind, os_path_exists, os_stat_size.
  rewrite H. rewrite bool_decide_eq_true_2 by eauto. cbn [negb]. rewrite H.
  destruct (String.length (data f) =? 0)%nat; [reflexivity|].
  unfold try_except, read_text, json_load, lift. rewrite H.
  destruct (readable f); [|reflexivity].
  destruct (json_loads (data f)) as [v|e]; [reflexivity|].
  destruct (is_JSONDecodeError e); reflexivity.
Qed.




Lemma length_zero_empty (s : string) :
  (String.length s =? 0)%nat = true <-> s = EmptyString.
Proof.
  destruct s; simpl; split; intros H; try reflexivity; discriminate.
Qed.

(** A save of well-formed records to a usable file leaves a readable
    file that holds the dump of their persisted form. *)
Lemma save_writes (log : list value) (recs : list (string * string))
  (filename : string) (w : world) :
  Forall2 well_formed_record log recs ->
  file_usable filename w = true ->
  exists f,
    files (snd (save_mood_history json_dumps log filename w)) !! filename = Some f
    /\ readable f = true
    /\ data f = json_dumps (persisted recs).
Proof.
  intros Hwf Hfile.
  rewrite save_mood_history_eq, save_body_eq.
  rewrite (comprehension_well_formed _ _ Hwf).
  destruct (write_text_ok filename (json_dumps (VList (map persisted_record recs))) w Hfile)
    as (f & Hw & Hr & Hd).
  rewrite Hw. exists f. split; [|split; assumption].
  cbn. apply lookup_insert_eq.
Qed.

(** Loading a readable file that holds the dump of a persisted log. *)
Lemma load_dumped (recs : list (string * string)) (filename : string)
  (w : world) (f : file) :
  codec_round_trips json_dumps json_loads ->
  files w !! filename = Some f ->
  readable f = true ->
  data f = json_dumps (persisted recs) ->
  load_mood_history json_loads filename w = (Ok (persisted recs), w).
Proof.
  intros Hcodec Hf Hr Hd. destruct (Hcodec recs) as [Hne Hrt].
  rewrite (load_present _ _ _ Hf), Hr, Hd, Hrt.
  destruct (String.length _ =? 0)%nat eqn:E; [|reflexivity].
  apply length_zero_empty in E. contradiction.
Qed.

(** Records without a [mood] field count for nothing in the stress
    check and in the aggregation. *)
Lemma no_mood_guard (l : list value) :
  Forall (fun r => has_key "mood" r = false) l ->
  filter (fun entry => is_dict entry && has_key "mood" entry = true) l = [].
Proof.
  induction 1 as [|r l H _ IH]; [reflexivity|].
  rewrite filter_cons_False; [exact IH|].
  rewrite H, andb_false_r. discriminate.
Qed.

Lemma no_mood_not_sad (l : list value) :
  Forall (fun r => has_key "mood" r = false) l ->
  filter (fun entry => is_sad_record entry = true) l = [].
Proof.
  induction 1 as [|r l H _ IH]; [reflexivity|].
  rewrite filter_cons_False; [exact IH|].
  destruct r as [| | | | | |d]; simpl; try discriminate.
  simpl in H. apply bool_decide_eq_false in H.
  destruct (dict_get d "mood"); [|discriminate].
  exfalso. apply H. eauto.
Qed.

Lemma no_mood_window (l : list value) :
  Forall (fun r => has_key "mood" r = false) l -> sad_in_window l = 0.
Proof.
  intros H. unfold sad_in_window. rewrite last_records_drop.
  rewrite no_mood_not_sad; [reflexivity|]. apply Forall_drop. exact H.
Qed.

Lemma persisted_no_mood (recs : list (string * string)) :
  Forall (fun r => has_key "mood" r = false) (map persisted_record recs).
Proof.
  apply Forall_forall. intros r Hr. apply list_elem_of_In, in_map_iff in Hr.
  destruct Hr as (x & <- & _). reflexivity.
Qed.

Lemma print_eq (line : string) (w : world) :
  print line w = (Ok VNone, add_stdout line w).
Proof. reflexivity. Qed.

(** One iteration of the loop: the history it returns, and the world it
    leaves. *)
Lemma main_step_eq (employee_id : string) (fr : frame) (history : list value)
  (w : world) :
  let detected_mood := detect_facial_emotion (analysis fr) in
  let log := history ++ [mood_entry sha256_hexdigest employee_id detected_mood] in
  main_step json_dumps sha256_hexdigest employee_id fr history w =
  (Ok log,
   add_stdout ("🎯 Recommended Task: " +:+ recommend_task (draw fr) detected_mood)
     (add_stdout ("🧐 Employee: " +:+ employee_id +:+ " | Detected Mood: " +:+ detected_mood)
        (snd (monitor_stress log
                (snd (save_mood_history json_dumps log history_file w)))))).
Proof.
  intros detected_mood log. unfold main_step. fold detected_mood. fold log.
  unfold mbind, M_bind.
  pose proof (save_mood_history_returns log history_file w) as Hs.
  destruct (save_mood_history json_dumps log history_file w) as [r1 w1].
  cbn [fst snd] in *. subst r1.
  rewrite monitor_stress_eq. cbn [snd]. rewrite !print_eq. reflexivity.
Qed.

(** C6: whatever fails inside [save_mood_history] (a malformed entry,
    a file that cannot be written), the call returns normally, the
    failure is printed as a diagnostic and the world is otherwise as it
    was; the function never raises, and an iteration of the main loop
    returns the history grown by its record whether or not the save
    succeeded. *)
Theorem save_failure_reported (log : list value) (filename : string)
  (w w1 : world) (e : exn) :
  save_body json_dumps log filename w = (Raise e, w1) ->
  save_mood_history json_dumps log filename w
    = (Ok VNone, add_stdout (save_error e) w) /\
  (forall log' filename' w',
     fst (save_mood_history json_dumps log' filename' w') = Ok VNone) /\
  (forall employee_id fr w',
     fst (main_step json_dumps sha256_hexdigest employee_id fr log w')
     = Ok (log ++ [mood_entry sha256_hexdigest employee_id
                     (detect_facial_emotion (analysis fr))])).
Proof.
  intros H. split; [|split].
  - rewrite save_mood_history_eq, H.
    rewrite (save_body_raise _ _ _ _ _ H). reflexivity.
  - intros. apply save_mood_history_returns.
  - intros. rewrite main_step_eq. reflexivity.
Qed.

Lemma comprehension_fields (log recs : list value) :
  comprehension project log = Ok recs ->
  Forall2 (fun entry r => exists e a,
             subscript entry "employee_id" = Ok e /\
             subscript entry "anonymized_mood" = Ok a /\
             r = VDict [("employee_id", e); ("anonymized_mood", a)]) log recs.
Proof.
  revert recs. induction log as [|entry log IH]; simpl; intros recs.
  - intros [= <-]. constructor.
  - unfold project at 1, mbind, outcome_bind.
    destruct (subscript entry "employee_id") as [e|] eqn:He; [|discriminate].
    destruct (subscript entry "anonymized_mood") as [a|] eqn:Ha; [|discriminate].
    cbn [mret outcome_ret].
    destruct (comprehension project log) as [rs|]; [|discriminate].
    intros [= <-]. constructor; [eauto | auto].
Qed.

(** C7: two logs whose records agree on [employee_id] and
    [anonymized_mood] are saved alike, whatever their [mood] and other
    fields: same result, same files, same output.  When the save
    succeeds, the file holds the dump of a list with one object per
    record, made of exactly the two fields, so no [mood] field reaches
    the file. *)
Theorem save_depends_on_projection (l1 l2 : list value) (filename : string)
  (w : world) :
  Forall2 same_projection l1 l2 ->
  save_mood_history json_dumps l1 filename w
    = save_mood_history json_dumps l2 filename w /\
  (forall v w1,
     save_body json_dumps l1 filename w = (Ok v, w1) ->
     exists recs f,
       Forall2 (fun entry r => exists e a,
                  subscript entry "employee_id" = Ok e /\
                  subscript entry "anonymized_mood" = Ok a /\
                  r = VDict [("employee_id", e); ("anonymized_mood", a)]) l1 recs /\
       Forall (fun r => has_key "mood" r = false) recs /\
       files w1 !! filename = Some f /\
       data f = json_dumps (VList recs)).
Proof.
  intros H. split.
  - rewrite !save_mood_history_eq, !save_body_eq.
    rewrite (comprehension_same _ _ H). reflexivity.
  - intros v w1. rewrite save_body_eq.
    destruct (comprehension project l1) as [recs|] eqn:Hc; [|discriminate].
    pose proof (comprehension_fields _ _ Hc) as Hf.
    unfold write_text.
    destruct (files w !! filename) as [f|] eqn:Hl.
    + destruct (writable f); [|discriminate]. intros [= _ <-].
      exists recs. eexists. split; [exact Hf|]. split.
      * clear -Hf. induction Hf as [|? ? ? ? (e & a & _ & _ & ->) _ IH];
          constructor; [reflexivity | exact IH].
      * cbn. split; [apply lookup_insert_eq | reflexivity].
    + intros [= _ <-]. exists recs. eexists. split; [exact Hf|]. split.
      * clear -Hf. induction Hf as [|? ? ? ? (e & a & _ & _ & ->) _ IH];
          constructor; [reflexivity | exact IH].
      * cbn. split; [apply lookup_insert_eq | reflexivity].
Qed.

(** C2: saving a log of well-formed records and loading the same file
    returns the list of the privacy-safe projections of the records, in
    the order of the log; the log may be empty or of any length. *)
Theorem save_load_round_trip (log : list value) (recs : list (string * string))
  (filename : string) (w : world) :
  codec_round_trips json_dumps json_loads ->
  Forall2 well_formed_record log recs ->
  file_usable filename w = true ->
  load_mood_history json_loads filename
    (snd (save_mood_history json_dumps log filename w))
  = (Ok (persisted recs), snd (save_mood_history json_dumps log filename w)).
Proof.
  intros Hcodec Hwf Hfile.
  destruct (save_writes log recs filename w Hwf Hfile) as (f & Hf & Hr & Hd).
  exact (load_dumped recs filename _ f Hcodec Hf Hr Hd).
Qed.


Lemma mood_counts_no_mood (l : list value) :
  Forall (fun r => has_key "mood" r = false) l -> mood_counts l = Ok [].
Proof.
  intros H. unfold mood_counts. rewrite (no_mood_guard _ H). reflexivity.
Qed.

Lemma plot_no_mood (l : list value) (w : world) :
  Forall (fun r => has_key "mood" r = false) l ->
  charts (snd (plot_team_mood (VList l) w)) = charts w.
Proof.
  intros H. unfold plot_team_mood.
  destruct (negb (truthy (VList l))); [reflexivity|].
  unfold mbind, M_bind, lift. cbn [iterate].
  rewrite (mood_counts_no_mood _ H). reflexivity.
Qed.

Lemma no_mood_prefix_window (old fresh : list value) :
  Forall (fun r => has_key "mood" r = false) old ->
  sad_in_window (old ++ fresh) = sad_in_window fresh.
Proof.
  intros H. unfold sad_in_window. rewrite !last_records_drop.
  rewrite length_app, drop_app, filter_app.
  rewrite (no_mood_not_sad (drop _ old)) by (apply Forall_drop; exact H).
  cbn [app]. do 2 f_equal. f_equal. lia.
Qed.

Lemma no_mood_prefix_counts (old fresh : list value) :
  Forall (fun r => has_key "mood" r = false) old ->
  mood_counts (old ++ fresh) = mood_counts fresh.
Proof.
  intros H. unfold mood_counts. rewrite filter_app, (no_mood_guard _ H).
  reflexivity.
Qed.

(** C10: the records that come back from a saved history carry the two
    persisted fields and no [mood] field; on a history made of them the
    stress check raises no alert and leaves the world as it was, the
    aggregation is the empty mapping and no chart is drawn; put before
    the records of the current session, they add nothing to the count
    of the stress window nor to the mood counts. *)
Theorem loaded_history_is_silent (log : list value) (recs : list (string * string))
  (filename : string) (w : world) :
  codec_round_trips json_dumps json_loads ->
  Forall2 well_formed_record log recs ->
  file_usable filename w = true ->
  exists loaded,
    fst (load_mood_history json_loads filename
           (snd (save_mood_history json_dumps log filename w))) = Ok (VList loaded) /\
    loaded = map persisted_record recs /\
    Forall (fun r => has_key "mood" r = false) loaded /\
    (forall w', ~ raises_alert loaded w' /\ monitor_stress loaded w' = (Ok VNone, w')) /\
    mood_counts loaded = Ok [] /\
    (forall w', charts (snd (plot_team_mood (VList loaded) w')) = charts w') /\
    (forall fresh,
       sad_in_window (loaded ++ fresh) = sad_in_window fresh /\
       mood_counts (loaded ++ fresh) = mood_counts fresh).
Proof.
  intros Hcodec Hwf Hfile. exists (map persisted_record recs).
  destruct (save_writes log recs filename w Hwf Hfile) as (f & Hf & Hr & Hd).
  rewrite (load_dumped recs filename _ f Hcodec Hf Hr Hd).
  pose proof (persisted_no_mood recs) as Hno.
  split; [reflexivity|]. split; [reflexivity|]. split; [exact Hno|].
  split; [|split; [|split]].
  - intros w'. unfold raises_alert. rewrite monitor_stress_eq.
    rewrite (no_mood_window _ Hno). cbn. split; [|reflexivity].
    intros E. symmetry in E. apply add_stdout_neq in E. contradiction.
  - apply mood_counts_no_mood. exact Hno.
  - intros w'. apply plot_no_mood. exact Hno.
  - intros fresh. split.
    + apply no_mood_prefix_window. exact Hno.
    + apply no_mood_prefix_counts. exact Hno.
Qed.

Lemma main_loop_returns (employee_id : string) (frames : list frame)
  (history : list value) (w : world) :
  fst (main_loop json_dumps sha256_hexdigest employee_id frames history w)
  = Ok (history ++
        map (fun fr => mood_entry sha256_hexdigest employee_id
                         (detect_facial_emotion (analysis fr)))
            (processed key_q frames)).
Proof.
  revert history w. induction frames as [|fr frames IH]; intros history w.
  - simpl. rewrite app_nil_r. reflexivity.
  - cbn [main_loop]. unfold mbind at 1, M_bind at 1.
    rewrite main_step_eq. cbn [processed map].
    destruct (key_q fr).
    + reflexivity.
    + rewrite IH. rewrite <- app_assoc. reflexivity.
Qed.

End Store.

(** ** The reference codec round-trips persisted logs *)

Import RefJson.

Lemma append_cons (x : ascii) (a b : string) : String x a +:+ b = String x (a +:+ b).
Proof. reflexivity. Qed.

Lemma append_nil (b : string) : EmptyString +:+ b = b.
Proof. reflexivity. Qed.

Lemma append_assoc (a b c : string) : (a +:+ b) +:+ c = a +:+ (b +:+ c).
Proof.
  induction a as [|x a IH]; [reflexivity|].
  rewrite !append_cons, IH. reflexivity.
Qed.

Lemma length_append (a b : string) :
  String.length (a +:+ b) = String.length a + String.length b.
Proof.
  induction a as [|x a IH]; [reflexivity|].
  rewrite append_cons. cbn [String.length]. rewrite IH. reflexivity.
Qed.

(** An escaped character is read back as the character. *)
Lemma parse_chars_escape_char (c : ascii) (rest : string) :
  parse_chars (escape_char c +:+ rest) = cons_char c (parse_chars rest).
Proof.
  destruct c as [[] [] [] [] [] [] [] []]; reflexivity.
Qed.

Lemma parse_chars_escape (s rest : string) :
  parse_chars (escape s +:+ String dquote rest) = Ok (s, rest).
Proof.
  induction s as [|c s IH]; [reflexivity|].
  cbn [escape]. rewrite append_assoc, parse_chars_escape_char, IH. reflexivity.
Qed.

Lemma dumps_string_append (s rest : string) :
  dumps_string s +:+ rest = String dquote (escape s +:+ String dquote rest).
Proof.
  unfold dumps_string. rewrite append_cons, append_assoc. reflexivity.
Qed.

Lemma skip_ws_spaces (n : nat) (rest : string) :
  skip_ws (spaces n +:+ rest) = skip_ws rest.
Proof.
  induction n as [|n IH]; [reflexivity|]. exact IH.
Qed.

Lemma skip_ws_newline_indent (level : nat) (rest : string) :
  skip_ws (newline_indent level +:+ rest) = skip_ws rest.
Proof.
  unfold newline_indent. rewrite append_cons. apply skip_ws_spaces.
Qed.

Lemma skip_ws_stop (c : ascii) (s : string) :
  is_ws c = false -> skip_ws (String c s) = String c s.
Proof. intros H. cbn [skip_ws]. rewrite H. reflexivity. Qed.

Lemma skip_ws_skip (c : ascii) (s : string) :
  is_ws c = true -> skip_ws (String c s) = skip_ws s.
Proof. intros H. cbn [skip_ws]. rewrite H. reflexivity. Qed.

(** One step of symbolic decoding: whitespace, an escaped string, or a
    test on a known character. *)
Ltac decode_step :=
  first
    [ rewrite skip_ws_newline_indent
    | rewrite skip_ws_stop by reflexivity
    | rewrite skip_ws_skip by reflexivity
    | rewrite parse_chars_escape
    | match goal with
      | |- context [Ascii.eqb ?a ?b] =>
          let r := eval vm_compute in (Ascii.eqb a b) in
          change (Ascii.eqb a b) with r
      end
    | progress cbn iota beta ].

Lemma parse_value_string (f : nat) (s rest : string) :
  parse_value (S f) (String dquote (escape s +:+ String dquote rest))
  = Ok (VStr s, rest).
Proof.
  cbn [parse_value]. repeat decode_step. reflexivity.
Qed.

Lemma parse_members_string_field (f n : nat) (k e Z : string) :
  parse_members (parse_value (S f)) (S n)
    (String dquote (escape k +:+ String dquote
       (String ":" (String " " (String dquote (escape e +:+ String dquote Z))))))
  = match skip_ws Z with
    | String c s4 =>
        if Ascii.eqb c "}" then Ok ([(k, VStr e)], s4)
        else if Ascii.eqb c "," then
          match parse_members (parse_value (S f)) n (skip_ws s4) with
          | Ok (kvs, s5) => Ok ((k, VStr e) :: kvs, s5)
          | Raise e => Raise e
          end
        else Raise JSONDecodeError
    | EmptyString => Raise JSONDecodeError
    end.
Proof.
  cbn [parse_members]. repeat decode_step.
  rewrite parse_value_string. reflexivity.
Qed.

(** Bring a text to the form the decoding lemmas read: characters
    consed onto the rest, string literals as quoted escapes. *)
Ltac flatten_text :=
  repeat (rewrite ?append_assoc, ?append_cons, ?append_nil, ?dumps_string_append).

Lemma parse_value_object (f : nat) (s : string) :
  parse_value (S f) (String "{" s)
  = match skip_ws s with
    | String c2 s2 =>
        if Ascii.eqb c2 "}" then Ok (VDict [], s2)
        else
          match parse_members (parse_value f) f (String c2 s2) with
          | Ok (kvs, rest) => Ok (VDict (dict_of_pairs kvs), rest)
          | Raise e => Raise e
          end
    | EmptyString => Raise JSONDecodeError
    end.
Proof. reflexivity. Qed.

Lemma parse_value_array (f : nat) (s : string) :
  parse_value (S f) (String "[" s)
  = match skip_ws s with
    | String c2 s2 =>
        if Ascii.eqb c2 "]" then Ok (VList [], s2)
        else
          match parse_elements (parse_value f) f (String c2 s2) with
          | Ok (vs, rest) => Ok (VList vs, rest)
          | Raise e => Raise e
          end
    | EmptyString => Raise JSONDecodeError
    end.
Proof. reflexivity. Qed.

Lemma parse_value_record (f : nat) (r : string * string) (rest : string) :
  parse_value (S (S (S f))) (dumps_at 1 (persisted_record r) +:+ rest)
  = Ok (persisted_record r, rest).
Proof.
  unfold persisted_record. cbn [dumps_at map fst snd bracketed join_items join_rest].
  flatten_text. rewrite parse_value_object. repeat decode_step.
  rewrite parse_members_string_field. repeat decode_step.
  rewrite parse_members_string_field. repeat decode_step.
  reflexivity.
Qed.

Lemma skip_ws_record (r : string * string) (rest : string) :
  skip_ws (dumps_at 1 (persisted_record r) +:+ rest)
  = dumps_at 1 (persisted_record r) +:+ rest.
Proof.
  unfold persisted_record. cbn [dumps_at map fst snd bracketed join_items join_rest].
  flatten_text. apply skip_ws_stop. reflexivity.
Qed.

Lemma parse_elements_step (pv : string -> outcome (value * string)) (n : nat)
  (s : string) :
  parse_elements pv (S n) s
  = match pv s with
    | Raise e => Raise e
    | Ok (v, s1) =>
        match skip_ws s1 with
        | String c s2 =>
            if Ascii.eqb c "]" then Ok ([v], s2)
            else if Ascii.eqb c "," then
              match parse_elements pv n (skip_ws s2) with
              | Ok (vs, s3) => Ok (v :: vs, s3)
              | Raise e => Raise e
              end
            else Raise JSONDecodeError
        | EmptyString => Raise JSONDecodeError
        end
    end.
Proof. reflexivity. Qed.

(** The elements of a persisted log are read back one record at a time,
    given one unit of fuel for each. *)
Lemma parse_elements_records (f n : nat) (r : string * string)
  (recs : list (string * string)) (rest : string) :
  length recs < n ->
  parse_elements (parse_value (S (S (S f)))) n
    (dumps_at 1 (persisted_record r)
     +:+ join_rest 1 (map (dumps_at 1) (map persisted_record recs))
     +:+ newline_indent 0 +:+ String "]" rest)
  = Ok (map persisted_record (r :: recs), rest).
Proof.
  revert r n. induction recs as [|r' recs IH]; intros r n Hn.
  - destruct n as [|n]; [simpl in Hn; lia|].
    rewrite parse_elements_step, parse_value_record.
    cbn [map join_rest]. rewrite append_nil. repeat decode_step. reflexivity.
  - destruct n as [|n]; [simpl in Hn; lia|].
    rewrite parse_elements_step, parse_value_record.
    cbn [map join_rest]. flatten_text. repeat decode_step.
    rewrite skip_ws_record. rewrite IH by (simpl in Hn; lia). reflexivity.
Qed.

Lemma length_join_rest (level : nat) (items : list string) :
  length items <= String.length (join_rest level items).
Proof.
  induction items as [|item items IH]; [simpl; lia|].
  cbn [join_rest length]. rewrite !length_append. simpl String.length. lia.
Qed.

Lemma record_text_length (r : string * string) :
  2 <= String.length (dumps_at 1 (persisted_record r)).
Proof.
  unfold persisted_record. cbn [dumps_at map fst snd bracketed join_items join_rest].
  rewrite !length_append. simpl String.length. lia.
Qed.

(** The text of a dump is made of characters of ASCII, which are their
    own encoding in UTF-8. *)
Lemma isascii_append (a b : string) :
  isascii (a +:+ b) = isascii a && isascii b.
Proof.
  induction a as [|x a IH]; [reflexivity|].
  rewrite append_cons. cbn [isascii]. rewrite IH. apply andb_assoc.
Qed.

Lemma utf8_decode_ascii (s : string) : isascii s = true -> utf8_decode s = Ok s.
Proof.
  induction s as [|c s IH]; [reflexivity|].
  cbn [isascii]. intros H. apply andb_prop in H. destruct H as [Hc Hs].
  cbn [utf8_decode]. unfold ascii_char in Hc. rewrite Hc, (IH Hs). reflexivity.
Qed.

Lemma escape_char_ascii (c : ascii) : isascii (escape_char c) = true.
Proof.
  destruct c as [[] [] [] [] [] [] [] []]; reflexivity.
Qed.

Lemma escape_ascii (s : string) : isascii (escape s) = true.
Proof.
  induction s as [|c s IH]; [reflexivity|].
  cbn [escape]. rewrite isascii_append, escape_char_ascii, IH. reflexivity.
Qed.

Lemma dumps_string_ascii (s : string) : isascii (dumps_string s) = true.
Proof.
  unfold dumps_string. cbn [isascii]. rewrite isascii_append, escape_ascii. reflexivity.
Qed.

Lemma spaces_ascii (n : nat) : isascii (spaces n) = true.
Proof. induction n as [|n IH]; [reflexivity | exact IH]. Qed.

Lemma newline_indent_ascii (level : nat) : isascii (newline_indent level) = true.
Proof. unfold newline_indent. cbn [isascii]. apply spaces_ascii. Qed.

Lemma record_ascii (r : string * string) :
  isascii (dumps_at 1 (persisted_record r)) = true.
Proof.
  unfold persisted_record. cbn [dumps_at map fst snd bracketed join_items join_rest].
  rewrite !isascii_append, !dumps_string_ascii, !newline_indent_ascii. reflexivity.
Qed.

Lemma join_rest_records_ascii (recs : list (string * string)) :
  isascii (join_rest 1 (map (dumps_at 1) (map persisted_record recs))) = true.
Proof.
  induction recs as [|r recs IH]; [reflexivity|].
  cbn [map join_rest].
  rewrite !isascii_append, newline_indent_ascii, record_ascii, IH. reflexivity.
Qed.

Lemma dumps_persisted_ascii (recs : list (string * string)) :
  isascii (dumps (persisted recs)) = true.
Proof.
  destruct recs as [|r recs]; [reflexivity|].
  unfold dumps, persisted. cbn [dumps_at map bracketed join_items].
  rewrite !isascii_append, !newline_indent_ascii, record_ascii, join_rest_records_ascii.
  reflexivity.
Qed.

Lemma dumps_persisted_no_mark (recs : list (string * string)) :
  String.prefix byte_order_mark (dumps (persisted recs)) = false.
Proof.
  destruct recs as [|r recs]; [reflexivity|].
  unfold dumps, persisted. cbn [dumps_at map bracketed]. flatten_text. reflexivity.
Qed.

Lemma loads_dumps_persisted (recs : list (string * string)) :
  loads (dumps (persisted recs)) = Ok (persisted recs).
Proof.
  unfold loads.
  rewrite (utf8_decode_ascii _ (dumps_persisted_ascii recs)), dumps_persisted_no_mark.
  destruct recs as [|r recs]; [reflexivity|].
  unfold dumps, persisted.
  cbn [dumps_at map bracketed join_items].
  set (t := dumps_at 1 (persisted_record r)).
  set (ts := map (dumps_at 1) (map persisted_record recs)).
  assert (Hlen : 3 + length recs <
                 String.length ("[" +:+ (newline_indent 1 +:+ t +:+ join_rest 1 ts)
                                +:+ newline_indent 0 +:+ "]")).
  { rewrite !length_append. simpl String.length.
    pose proof (length_join_rest 1 ts) as H1.
    pose proof (record_text_length r) as H2. fold t in H2.
    unfold ts in H1. rewrite !length_map in H1. fold ts in H1. lia. }
  destruct (String.length _) as [|[|[|f]]] eqn:HF; try lia.
  flatten_text. rewrite skip_ws_stop by reflexivity.
  rewrite parse_value_array. repeat decode_step.
  unfold t. rewrite skip_ws_record.
  assert (Hskip : forall X, exists c s, dumps_at 1 (persisted_record r) +:+ X = String c s
                                  /\ Ascii.eqb c "]" = false).
  { intros X. unfold persisted_record.
    cbn [dumps_at map fst snd bracketed join_items join_rest]. flatten_text.
    eexists _, _. split; reflexivity. }
  destruct (Hskip (join_rest 1 ts +:+ newline_indent 0 +:+ String "]" EmptyString))
    as (c & s & Hcs & Hc).
  rewrite Hcs, Hc, <- Hcs.
  unfold ts. rewrite parse_elements_records by lia. reflexivity.
Qed.

Lemma dumps_persisted_nonempty (recs : list (string * string)) :
  dumps (persisted recs) <> EmptyString.
Proof.
  destruct recs as [|r recs]; [discriminate|].
  unfold dumps, persisted. cbn [dumps_at map bracketed]. flatten_text. discriminate.
Qed.

Lemma ref_codec_round_trips : codec_round_trips dumps loads.
Proof.
  intros recs. split; [apply dumps_persisted_nonempty | apply loads_dumps_persisted].
Qed.

(** ** Instances on the reference codec *)

Lemma sample_log_well_formed : Forall2 well_formed_record sample_log sample_recs.
Proof. repeat constructor. Qed.

(** The round trip on a log of two records and a file that does not
    exist yet. *)
Lemma save_load_round_trip_witness :
  load_mood_history loads "mood_history.json"
    (snd (save_mood_history dumps sample_log "mood_history.json" empty_world))
  = (Ok (persisted sample_recs),
     snd (save_mood_history dumps sample_log "mood_history.json" empty_world)).
Proof.
  apply (save_load_round_trip dumps loads sample_log sample_recs
           "mood_history.json" empty_world ref_codec_round_trips).
  - exact sample_log_well_formed.
  - reflexivity.
Defined.

Lemma file_world_lookup (filename : string) (f : file) :
  files (file_world filename f) !! filename = Some f.
Proof. apply lookup_singleton_eq. Qed.



(** Only [json.JSONDecodeError] is caught: on a file that holds the byte
    [0xFF] the decoding fails, and the [UnicodeDecodeError] leaves
    [load_mood_history]; nothing is printed. *)
Example load_undecodable :
  load_mood_history loads "mood_history.json" undecodable_world
  = (Raise UnicodeDecodeError, undecodable_world).
Proof.
  unfold undecodable_world.
  rewrite (load_present loads _ _ _ (file_world_lookup _ _)). reflexivity.
Qed.

(** A number with a fraction is loaded as the binary64 number. *)
Example load_fraction :
  load_mood_history loads "mood_history.json" fraction_world
  = (Ok (VList [VFloat 0.5]), fraction_world).
Proof.
  unfold fraction_world.
  rewrite (load_present loads _ _ _ (file_world_lookup _ _)). vm_compute. reflexivity.
Qed.

Lemma read_only_save_fails :
  save_body dumps sample_log "mood_history.json" read_only_world
  = (Raise (OSError "[Errno 13] Permission denied"), read_only_world).
Proof.
  rewrite save_body_eq. unfold write_text, read_only_world.
  rewrite file_world_lookup. reflexivity.
Qed.

(** A save to a file without write permission. *)
Lemma save_failure_reported_witness :
  save_mood_history dumps sample_log "mood_history.json" read_only_world
  = (Ok VNone,
     add_stdout (save_error (OSError "[Errno 13] Permission denied")) read_only_world).
Proof.
  exact (proj1 (save_failure_reported dumps sample_digest sample_log
                  "mood_history.json" read_only_world read_only_world
                  (OSError "[Errno 13] Permission denied") read_only_save_fails)).
Defined.

(** Two logs that differ in moods, in the order of the keys and in an
    extra field are saved alike. *)
Lemma save_depends_on_projection_witness :
  save_mood_history dumps sample_log "mood_history.json" empty_world
  = save_mood_history dumps sample_log' "mood_history.json" empty_world.
Proof.
  apply (save_depends_on_projection dumps sample_log sample_log'
           "mood_history.json" empty_world).
  repeat constructor.
Defined.

(** The history loaded back from the saved sample log. *)
Lemma loaded_history_is_silent_witness :
  exists loaded,
    fst (load_mood_history loads "mood_history.json"
           (snd (save_mood_history dumps sample_log "mood_history.json" empty_world)))
      = Ok (VList loaded) /\
    loaded = map persisted_record sample_recs /\
    Forall (fun r => has_key "mood" r = false) loaded /\
    (forall w', ~ raises_alert loaded w' /\ monitor_stress loaded w' = (Ok VNone, w')) /\
    mood_counts loaded = Ok [] /\
    (forall w', charts (snd (plot_team_mood (VList loaded) w')) = charts w') /\
    (forall fresh,
       sad_in_window (loaded ++ fresh) = sad_in_window fresh /\
       mood_counts (loaded ++ fresh) = mood_counts fresh).
Proof.
  apply (loaded_history_is_silent dumps loads sample_log sample_recs
           "mood_history.json" empty_world ref_codec_round_trips).
  - exact sample_log_well_formed.
  - reflexivity.
Defined.

(** ** Scenarios of the specification *)

Example stress_three_sad_of_five :
  raises_alert [sad_entry; VInt 0; sad_entry; VStr "x"; sad_entry] empty_world.
Proof. reflexivity. Qed.

Example stress_sad_outside_window :
  monitor_stress
    [sad_entry; sad_entry; sad_entry; VNone; VNone; VNone; VNone; VNone] empty_world
  = (Ok VNone, empty_world).
Proof. reflexivity. Qed.

Example stress_two_sad :
  monitor_stress [sad_entry; sad_entry] empty_world = (Ok VNone, empty_world).
Proof. reflexivity. Qed.

Example aggregate_three_happy_one_sad :
  mood_counts
    [ VDict [("mood", VStr "Happy")]; VDict [("mood", VStr "Happy")];
      VDict [("mood", VStr "Sad")]; VDict [("mood", VStr "Happy")];
      VDict [("employee_id", VStr "E9")]; VInt 3 ]
  = Ok [(VStr "Happy", 3); (VStr "Sad", 1)].
Proof. reflexivity. Qed.

Example aggregate_empty : mood_counts [] = Ok [].
Proof. reflexivity. Qed.

(** A stored record is loaded, a second one is appended, and the save
    overwrites the file with both, the first one unchanged. *)
Example stored_then_appended :
  let w := file_world "mood_history.json"
             (mkFile true true (dumps (persisted [("E1", "abc")]))) in
  let entry := mood_entry sample_digest "E2" "Happy" in
  load_mood_history loads "mood_history.json" w
    = (Ok (persisted [("E1", "abc")]), w) /\
  load_mood_history loads "mood_history.json"
    (snd (save_mood_history dumps
            (map persisted_record [("E1", "abc")] ++ [entry]) "mood_history.json" w))
    = (Ok (persisted [("E1", "abc"); ("E2", sample_digest "Happy")]),
       snd (save_mood_history dumps
              (map persisted_record [("E1", "abc")] ++ [entry]) "mood_history.json" w)).
Proof.
  split.
  - cbv zeta. rewrite (load_present loads _ _ _ (file_world_lookup _ _)). reflexivity.
  - cbv zeta.
    destruct (save_writes dumps
                (map persisted_record [("E1", "abc")]
                 ++ [mood_entry sample_digest "E2" "Happy"])
                [("E1", "abc"); ("E2", sample_digest "Happy")]
                "mood_history.json"
                (file_world "mood_history.json"
                   (mkFile true true (dumps (persisted [("E1", "abc")])))))
      as (f & Hf & Hr & Hd); [repeat constructor | reflexivity |].
    exact (load_dumped dumps loads _ _ _ f ref_codec_round_trips Hf Hr Hd).
Qed.

(** * Further properties of the script *)

(** ** Recommender *)

Lemma to_upper_lower (c : ascii) : to_upper (to_lower c) = to_upper c.
Proof.
  destruct c as [[] [] [] [] [] [] [] []]; reflexivity.
Qed.

Lemma capitalize_lower (s : string) : capitalize (lower s) = capitalize s.
Proof.
  destruct s as [|c s]; [reflexivity|].
  cbn [lower capitalize]. rewrite to_upper_lower, lower_idempotent. reflexivity.
Qed.

(** X1: [recommend_task] ignores the letter case of its argument: two
    moods with the same lower-case form get the same suggestion from the
    same draw. *)
Theorem recommend_task_case_insensitive (draw : nat) (m1 m2 : string) :
  lower m1 = lower m2 -> recommend_task draw m1 = recommend_task draw m2.
Proof.
  intros H. unfold recommend_task.
  rewrite <- (capitalize_lower m1), <- (capitalize_lower m2), H. reflexivity.
Qed.

(** The same draw on [sAd] and [SAD]. *)
Lemma recommend_task_case_insensitive_witness :
  recommend_task 5 "sAd" = recommend_task 5 "SAD".
Proof.
  apply (recommend_task_case_insensitive 5 "sAd" "SAD"). reflexivity.
Defined.

(** X2: for a mood that has candidates, the suggestions that
    [recommend_task] can return, over all draws, are exactly the
    candidates of the mood. *)
Theorem recommend_task_range (mood : string) (cands : list string) (c : string) :
  candidates tasks (capitalize mood) = Some cands ->
  (exists draw, recommend_task draw mood = c) <-> In c cands.
Proof.
  intros Hc. split.
  - intros [draw <-]. rewrite recommend_task_eq, Hc.
    apply random_choice_In.
    apply (tasks_candidates_ok _ _ (candidates_In _ _ _ Hc)).
  - intros Hin. destruct (In_nth _ _ EmptyString Hin) as (i & Hi & Hn).
    exists i. rewrite recommend_task_eq, Hc. unfold random_choice.
    rewrite Nat.mod_small by exact Hi. exact Hn.
Qed.

(** The third candidate of [Fear] is reached. *)
Lemma recommend_task_range_witness :
  (exists draw, recommend_task draw "fear" = "Seek support") <->
  In "Seek support"
     ["Practice deep breathing"; "Engage in light work"; "Seek support"].
Proof.
  apply (recommend_task_range "fear"). reflexivity.
Defined.

(** X3: whatever polarity the sentiment library reports, a number of
    either sign, a zero or a NaN, [detect_text_emotion] answers one of
    [Happy], [Sad], [Fear], and [recommend_task] has candidates for it:
    a text never gets the fallback. *)
Theorem text_emotion_has_suggestion (polarity : float) (draw : nat) :
  In (detect_text_emotion polarity) ["Happy"; "Sad"; "Fear"] /\
  recommend_task draw (detect_text_emotion polarity) <> no_suggestion /\
  exists cands,
    candidates tasks (detect_text_emotion polarity) = Some cands /\
    In (recommend_task draw (detect_text_emotion polarity)) cands.
Proof.
  assert (H : In (detect_text_emotion polarity) ["Happy"; "Sad"; "Fear"]).
  { unfold detect_text_emotion.
    destruct (PrimFloat.ltb 0 polarity); [simpl; tauto|].
    destruct (PrimFloat.ltb polarity 0); simpl; tauto. }
  split; [exact H|].
  assert (Hc : exists cands,
             candidates tasks (capitalize (detect_text_emotion polarity)) = Some cands
             /\ candidates tasks (detect_text_emotion polarity) = Some cands).
  { simpl in H. destruct H as [<-|[<-|[<-|[]]]]; eexists; split; reflexivity. }
  destruct Hc as (cands & Hc & Hc').
  destruct (tasks_candidates_ok _ _ (candidates_In _ _ _ Hc)) as (_ & Hne & Hno).
  assert (Hin : In (recommend_task draw (detect_text_emotion polarity)) cands).
  { rewrite recommend_task_eq, Hc. apply random_choice_In. exact Hne. }
  split.
  - intros E. apply Hno. rewrite <- E. exact Hin.
  - exists cands. split; assumption.
Qed.

(** ** Emotion of a frame *)

Lemma upper_S_lower_s (c : ascii) :
  to_upper c = "S"%char <-> to_lower c = "s"%char.
Proof.
  destruct c as [[] [] [] [] [] [] [] []]; split; intros H;
    first [reflexivity | discriminate H].
Qed.

Lemma capitalize_sad (e : string) : capitalize e = "Sad" <-> lower e = "sad".
Proof.
  destruct e as [|c s]; [split; discriminate|].
  cbn [capitalize lower]. split; intros [= Hc Hs].
  - apply upper_S_lower_s in Hc. rewrite Hc, Hs. reflexivity.
  - apply upper_S_lower_s in Hc. rewrite Hc, Hs. reflexivity.
Qed.

(** X4: the record that [main] builds for a frame counts as [Sad] in the
    stress monitor only if the analysis reports a face; it does when the
    dominant emotion of the first face is [sad] in some letter case; and
    when that emotion is an ASCII string, it does only then. *)
Theorem frame_record_sad_iff (sha256_hexdigest : string -> string)
  (employee_id : string) (result : list string) :
  (is_sad_record
     (mood_entry sha256_hexdigest employee_id (detect_facial_emotion result)) = true ->
   exists e rest, result = e :: rest) /\
  (forall e rest, result = e :: rest -> same_letters e "sad" = true ->
   is_sad_record
     (mood_entry sha256_hexdigest employee_id (detect_facial_emotion result)) = true) /\
  (forall e rest, result = e :: rest -> isascii e = true ->
   is_sad_record
     (mood_entry sha256_hexdigest employee_id (detect_facial_emotion result)) = true ->
   same_letters e "sad" = true).
Proof.
  assert (H : is_sad_record
                (mood_entry sha256_hexdigest employee_id (detect_facial_emotion result))
              = true <-> detect_facial_emotion result = "Sad").
  { unfold mood_entry, is_sad_record. cbn [dict_get]. cbn. apply String.eqb_eq. }
  split; [|split].
  - intros Hs. apply H in Hs. destruct result as [|e rest]; [discriminate | eauto].
  - intros e rest He Hs. apply H. rewrite He. cbn [detect_facial_emotion].
    apply same_letters_capitalize in Hs. exact Hs.
  - intros e rest He _ Hs. apply H in Hs. rewrite He in Hs.
    cbn [detect_facial_emotion] in Hs.
    apply same_letters_capitalize. exact Hs.
Qed.

(** ** Stress monitor *)

Lemma sad_in_window_tail3 (old : list value) (a b c : value) :
  sad_in_window (old ++ [a; b; c])
  = length (filter (fun entry => is_sad_record entry = true)
              (drop (length old - 2) old))
    + length (filter (fun entry => is_sad_record entry = true) [a; b; c]).
Proof.
  unfold sad_in_window. rewrite last_records_drop, length_app, drop_app, filter_app.
  rewrite length_app. cbn [length].
  replace (length old + 3 - 5) with (length old - 2) by lia.
  replace (length old - 2 - length old) with 0 by lia.
  reflexivity.
Qed.

Lemma filter_length_le {A : Type} (P : A -> Prop) `{forall x, Decision (P x)}
  (l : list A) : length (filter P l) <= length l.
Proof.
  induction l as [|x l IH]; [reflexivity|].
  destruct (decide (P x)).
  - rewrite filter_cons_True by assumption. simpl. lia.
  - rewrite filter_cons_False by assumption. simpl. lia.
Qed.

(** X5: three [Sad] records in a row at the end of the log raise the
    alert, whatever the log holds before them. *)
Theorem three_sad_in_a_row_alert (old : list value) (a b c : value) (w : world) :
  is_sad_record a = true -> is_sad_record b = true -> is_sad_record c = true ->
  raises_alert (old ++ [a; b; c]) w.
Proof.
  intros Ha Hb Hc. unfold raises_alert.
  rewrite monitor_stress_eq, sad_in_window_tail3.
  rewrite !filter_cons_True, filter_nil by assumption.
  cbn [length snd].
  replace (3 <=? _ + 3)%nat with true; [reflexivity|].
  symmetry. apply Nat.leb_le. lia.
Qed.

(** After two calm records, three sad ones in a row. *)
Lemma three_sad_in_a_row_alert_witness :
  raises_alert ([calm_entry; calm_entry] ++ [sad_entry; sad_entry; sad_entry])
    empty_world.
Proof.
  apply (three_sad_in_a_row_alert [calm_entry; calm_entry]
           sad_entry sad_entry sad_entry empty_world); reflexivity.
Defined.

(** X6: three records in a row that are not [Sad] at the end of the log
    silence the stress check, whatever the log holds before them: it
    prints nothing and leaves the world as it was. *)
Theorem three_calm_in_a_row_silent (old : list value) (a b c : value) (w : world) :
  is_sad_record a = false -> is_sad_record b = false -> is_sad_record c = false ->
  monitor_stress (old ++ [a; b; c]) w = (Ok VNone, w).
Proof.
  intros Ha Hb Hc. rewrite monitor_stress_eq, sad_in_window_tail3.
  rewrite !filter_cons_False, filter_nil by congruence.
  pose proof (filter_length_le (fun entry => is_sad_record entry = true)
                (drop (length old - 2) old)) as Hle.
  rewrite length_drop in Hle. cbn [length].
  replace (3 <=? _ + 0)%nat with false; [reflexivity|].
  symmetry. apply Nat.leb_gt. lia.
Qed.

(** After five sad records, three that carry no [Sad] mood. *)
Lemma three_calm_in_a_row_silent_witness :
  monitor_stress
    ([sad_entry; sad_entry; sad_entry; sad_entry; sad_entry]
     ++ [calm_entry; VInt 0; calm_entry]) empty_world
  = (Ok VNone, empty_world).
Proof.
  apply (three_calm_in_a_row_silent
           [sad_entry; sad_entry; sad_entry; sad_entry; sad_entry]
           calm_entry (VInt 0) calm_entry empty_world); reflexivity.
Defined.

Lemma sad_count_agree (l1 l2 : list value) :
  Forall2 (fun e1 e2 => is_sad_record e1 = is_sad_record e2) l1 l2 ->
  length (filter (fun entry => is_sad_record entry = true) l1)
  = length (filter (fun entry => is_sad_record entry = true) l2).
Proof.
  induction 1 as [|e1 e2 l1 l2 H _ IH]; [reflexivity|].
  destruct (is_sad_record e2) eqn:E.
  - rewrite !filter_cons_True by congruence. simpl. rewrite IH. reflexivity.
  - rewrite !filter_cons_False by congruence. exact IH.
Qed.

(** X7: the stress check reads nothing but the moods: two logs whose
    records agree, position by position, on being [Sad] get the same
    verdict, whoever the records belong to and whatever else they carry. *)
Theorem monitor_stress_reads_moods_only (l1 l2 : list value) (w : world) :
  Forall2 (fun e1 e2 => is_sad_record e1 = is_sad_record e2) l1 l2 ->
  monitor_stress l1 w = monitor_stress l2 w.
Proof.
  intros H. rewrite !monitor_stress_eq. unfold sad_in_window.
  rewrite !last_records_drop, (Forall2_length _ _ _ H).
  rewrite (sad_count_agree _ _ (Forall2_drop _ _ _ (length l2 - 5) H)).
  reflexivity.
Qed.

(** The sample log and the same moods under other employees. *)
Lemma monitor_stress_reads_moods_only_witness :
  monitor_stress sample_log empty_world
  = monitor_stress
      [ VDict [("employee_id", VStr "E7"); ("mood", VStr "Sad")];
        VDict [("mood", VStr "Fear")] ] empty_world.
Proof.
  apply (monitor_stress_reads_moods_only sample_log
           [ VDict [("employee_id", VStr "E7"); ("mood", VStr "Sad")];
             VDict [("mood", VStr "Fear")] ] empty_world).
  repeat constructor.
Defined.

(** ** Aggregation and chart *)

Lemma guarded_moods_of (l : list value) :
  comprehension (fun entry => subscript entry "mood")
    (filter (fun entry => is_dict entry && has_key "mood" entry = true) l)
  = Ok (moods_of l).
Proof.
  induction l as [|e l IH]; [reflexivity|].
  destruct e as [| b | z | x | s | l0 | d];
    try (rewrite filter_cons_False by (simpl; congruence); exact IH).
  cbn [moods_of]. destruct (dict_get d "mood") as [m|] eqn:Hm.
  - rewrite filter_cons_True
      by (simpl; apply bool_decide_eq_true; rewrite Hm; eauto).
    cbn [comprehension subscript]. rewrite Hm, IH. reflexivity.
  - rewrite filter_cons_False; [exact IH|].
    simpl. intros H. apply bool_decide_eq_true in H. rewrite Hm in H.
    destruct H as [? H]. discriminate.
Qed.

Lemma mood_counts_eq (l : list value) : mood_counts l = Counter [] (moods_of l).
Proof.
  unfold mood_counts. rewrite guarded_moods_of. reflexivity.
Qed.

Lemma moods_of_length (l : list value) :
  length (moods_of l) = length (filter (fun e => carries_mood e = true) l).
Proof.
  induction l as [|e l IH]; [reflexivity|].
  destruct e as [| b | z | x | s | l0 | d];
    try (rewrite filter_cons_False by (unfold carries_mood; simpl; congruence);
         exact IH).
  cbn [moods_of]. destruct (dict_get d "mood") as [m|] eqn:Hm.
  - rewrite filter_cons_True.
    + simpl. rewrite IH. reflexivity.
    + unfold carries_mood. simpl. apply bool_decide_eq_true. rewrite Hm. eauto.
  - rewrite filter_cons_False; [exact IH|].
    unfold carries_mood. simpl. intros H. apply bool_decide_eq_true in H.
    rewrite Hm in H. destruct H as [? H]. discriminate.
Qed.

Lemma moods_of_count (s : string) (l : list value) :
  length (filter (fun m => eq_str m s = true) (moods_of l))
  = length (filter (fun e => mood_is s e = true) l).
Proof.
  induction l as [|e l IH]; [reflexivity|].
  destruct e as [| b | z | x | t | l0 | d];
    try (rewrite (filter_cons_False (fun e => mood_is s e = true))
           by (simpl; congruence); exact IH).
  cbn [moods_of]. destruct (dict_get d "mood") as [m|] eqn:Hm.
  - destruct (eq_str m s) eqn:E.
    + rewrite !filter_cons_True; [simpl; rewrite IH; reflexivity| |exact E].
      simpl. rewrite Hm. destruct m; simpl in E; try discriminate. exact E.
    + rewrite !filter_cons_False; [exact IH| |congruence].
      simpl. rewrite Hm. destruct m; simpl in E; congruence.
  - rewrite (filter_cons_False (fun e => mood_is s e = true)); [exact IH|].
    simpl. rewrite Hm. congruence.
Qed.

Lemma moods_of_strings (l : list value) :
  forallb string_mood l = true ->
  Forall (fun m => exists s, m = VStr s) (moods_of l).
Proof.
  induction l as [|e l IH]; [constructor|].
  cbn [forallb]. intros H. apply andb_prop in H. destruct H as [He Hl].
  destruct e as [| b | z | x | t | l0 | d]; cbn [moods_of]; auto.
  simpl in He. destruct (dict_get d "mood") as [m|]; auto.
  destruct m; try discriminate. constructor; eauto.
Qed.

Lemma counter_add_sum (c : list (value * nat)) (k : value) :
  list_sum (map snd (counter_add c k)) = S (list_sum (map snd c)).
Proof.
  induction c as [|[k' n] c IH]; [reflexivity|].
  cbn [counter_add]. destruct (key_eq k' k).
  - reflexivity.
  - change (n + list_sum (map snd (counter_add c k)) = S (n + list_sum (map snd c))).
    rewrite IH. lia.
Qed.

Lemma counter_add_keys (c : list (value * nat)) (s : string) (k : value) :
  Forall (fun kn => (exists s, fst kn = VStr s) /\ 0 < snd kn) c ->
  In k (map fst (counter_add c (VStr s))) -> In k (map fst c) \/ k = VStr s.
Proof.
  induction 1 as [|[k' n] c [[t Ht] Hn] _ IH]; cbn [counter_add map fst].
  - simpl. intros [<-|[]]. right. reflexivity.
  - simpl in Ht. subst k'. cbn [key_eq]. destruct (String.eqb t s).
    + cbn [map fst]. intros H. left. exact H.
    + cbn [map fst]. intros [<-|H]; [left; left; reflexivity|].
      destruct (IH H) as [H'|H']; [left; right; exact H' | right; exact H'].
Qed.

Lemma counter_add_ok (c : list (value * nat)) (s : string) :
  counter_ok c -> counter_ok (counter_add c (VStr s)).
Proof.
  intros [Hk Hn]. induction c as [|[k' n] c IH].
  - split.
    + constructor; [split; [eexists; reflexivity | simpl; lia] | constructor].
    + cbn. apply NoDup_singleton.
  - inversion Hk as [|? ? [[t Ht] Hpos] Hk']; subst. simpl in Ht. subst k'.
    cbn [map fst] in Hn. apply NoDup_cons in Hn. destruct Hn as [Hnotin Hn].
    cbn [counter_add key_eq]. destruct (String.eqb t s) eqn:E.
    + split.
      * constructor; [split; [eauto | simpl; lia] | exact Hk'].
      * cbn [map fst]. apply NoDup_cons. split; assumption.
    + destruct (IH Hk' Hn) as [Hk2 Hn2]. split.
      * constructor; [split; [eauto | exact Hpos] | exact Hk2].
      * cbn [map fst]. apply NoDup_cons. split; [|exact Hn2].
        intros Hin. apply list_elem_of_In in Hin.
        destruct (counter_add_keys c s (VStr t) Hk' Hin) as [H|H].
        -- apply Hnotin. apply list_elem_of_In. exact H.
        -- injection H as ->. rewrite String.eqb_refl in E. discriminate.
Qed.

Lemma counter_get_add (c : list (value * nat)) (s t : string) :
  Forall (fun kn => (exists s, fst kn = VStr s) /\ 0 < snd kn) c ->
  counter_get (counter_add c (VStr s)) (VStr t)
  = counter_get c (VStr t) + (if String.eqb s t then 1 else 0).
Proof.
  induction 1 as [|[k' n] c [[u Hu] Hn] _ IH].
  - cbn. destruct (String.eqb s t); reflexivity.
  - simpl in Hu. subst k'. cbn [counter_add key_eq].
    destruct (String.eqb u s) eqn:Eus.
    + apply String.eqb_eq in Eus. subst u. cbn [counter_get key_eq].
      destruct (String.eqb s t); lia.
    + cbn [counter_get key_eq]. destruct (String.eqb u t) eqn:Eut.
      * apply String.eqb_eq in Eut. subst u. rewrite String.eqb_sym, Eus. lia.
      * exact IH.
Qed.

(** What [Counter] makes of a list of strings. *)
Lemma Counter_strings (items : list value) (c : list (value * nat)) :
  Forall (fun m => exists s, m = VStr s) items ->
  counter_ok c ->
  exists c',
    Counter c items = Ok c' /\
    counter_ok c' /\
    (forall t, counter_get c' (VStr t)
               = counter_get c (VStr t)
                 + length (filter (fun m => eq_str m t = true) items)) /\
    list_sum (map snd c') = list_sum (map snd c) + length items.
Proof.
  intros Hitems. revert c.
  induction Hitems as [|m items [s ->] _ IH]; intros c Hc.
  - exists c. split; [reflexivity|]. split; [exact Hc|].
    split; [intros; simpl; lia | simpl; lia].
  - destruct (IH _ (counter_add_ok c s Hc)) as (c' & Hrun & Hok & Hget & Hsum).
    exists c'. cbn [Counter hashable]. split; [exact Hrun|]. split; [exact Hok|].
    split.
    + intros t. rewrite Hget, (counter_get_add c s t (proj1 Hc)).
      cbn [eq_str]. destruct (String.eqb s t) eqn:E.
      * rewrite filter_cons_True by exact E. simpl. lia.
      * rewrite filter_cons_False by (cbn [eq_str]; congruence). lia.
    + rewrite Hsum, counter_add_sum. simpl. lia.
Qed.

Lemma counter_ok_empty : counter_ok [].
Proof. split; constructor. Qed.

(** X8: on a history whose moods are strings, the aggregation of
    [plot_team_mood] does not raise; the count it holds for a mood is the
    number of records that are dictionaries with that mood, no mood is
    listed twice, no listed mood has count zero, and the counts add up to
    the number of records that carry a mood. *)
Theorem mood_counts_correct (l : list value) :
  forallb string_mood l = true ->
  exists c,
    mood_counts l = Ok c /\
    (forall s, counter_get c (VStr s)
               = length (filter (fun e => mood_is s e = true) l)) /\
    NoDup (map fst c) /\
    Forall (fun kn => (exists s, fst kn = VStr s) /\ 0 < snd kn) c /\
    list_sum (map snd c) = length (filter (fun e => carries_mood e = true) l).
Proof.
  intros H.
  destruct (Counter_strings (moods_of l) [] (moods_of_strings l H) counter_ok_empty)
    as (c & Hrun & [Hk Hn] & Hget & Hsum).
  exists c. rewrite mood_counts_eq. split; [exact Hrun|]. split; [|split; [|split]].
  - intros s. rewrite Hget, moods_of_count. reflexivity.
  - exact Hn.
  - exact Hk.
  - rewrite Hsum, moods_of_length. reflexivity.
Qed.

(** The sample log, a record without a mood and an entry that is no
    record. *)
Lemma mood_counts_correct_witness :
  exists c,
    mood_counts (sample_log ++ [sad_entry; VDict [("employee_id", VStr "E3")]; VNone])
      = Ok c /\
    (forall s, counter_get c (VStr s)
               = length (filter (fun e => mood_is s e = true)
                           (sample_log
                            ++ [sad_entry; VDict [("employee_id", VStr "E3")]; VNone]))) /\
    NoDup (map fst c) /\
    Forall (fun kn => (exists s, fst kn = VStr s) /\ 0 < snd kn) c /\
    list_sum (map snd c)
    = length (filter (fun e => carries_mood e = true)
                (sample_log ++ [sad_entry; VDict [("employee_id", VStr "E3")]; VNone])).
Proof.
  apply (mood_counts_correct
           (sample_log ++ [sad_entry; VDict [("employee_id", VStr "E3")]; VNone])).
  reflexivity.
Defined.

Lemma existsb_filter_length {A : Type} (f : A -> bool) (l : list A) :
  existsb f l = (0 <? length (filter (fun x => f x = true) l))%nat.
Proof.
  induction l as [|x l IH]; [reflexivity|].
  cbn [existsb]. destruct (f x) eqn:E.
  - rewrite filter_cons_True by exact E. reflexivity.
  - rewrite filter_cons_False by congruence. exact IH.
Qed.

Lemma plot_team_mood_list (x : value) (l : list value) (w : world) :
  plot_team_mood (VList (x :: l)) w
  = match mood_counts (x :: l) with
    | Ok counts =>
        if bool_decide (counts = [])
        then (Ok VNone, add_stdout "⚠️ No valid mood data available for plotting." w)
        else (Ok VNone,
              add_chart (mkChart (map fst counts) (map snd counts)
                           (map (fun kc => color_of (fst kc)) counts)) w)
    | Raise e => (Raise e, w)
    end.
Proof.
  unfold plot_team_mood, mbind, M_bind, lift. cbn [truthy iterate negb].
  rewrite bool_decide_eq_false_2 by discriminate. cbn [negb].
  destruct (mood_counts (x :: l)) as [counts|e]; [|reflexivity].
  destruct (bool_decide (counts = [])); reflexivity.
Qed.

(** The chart of a history whose moods are strings, from its counts. *)
Lemma plot_strings (l : list value) (w : world) :
  forallb string_mood l = true ->
  existsb carries_mood l = true ->
  exists c,
    c <> [] /\ counter_ok c /\
    list_sum (map snd c) = length (filter (fun e => carries_mood e = true) l) /\
    plot_team_mood (VList l) w
    = (Ok VNone,
       add_chart (mkChart (map fst c) (map snd c)
                    (map (fun kc => color_of (fst kc)) c)) w).
Proof.
  intros Hstr Hex.
  rewrite existsb_filter_length in Hex. apply Nat.ltb_lt in Hex.
  destruct (Counter_strings (moods_of l) [] (moods_of_strings l Hstr) counter_ok_empty)
    as (c & Hrun & Hok & _ & Hsum).
  rewrite moods_of_length in Hsum. cbn [map list_sum] in Hsum.
  destruct l as [|x l]; [simpl in Hex; lia|].
  assert (Hne : c <> []).
  { intros ->. simpl in Hsum. lia. }
  exists c. split; [exact Hne|]. split; [exact Hok|]. split; [exact Hsum|].
  rewrite plot_team_mood_list, mood_counts_eq, Hrun.
  rewrite bool_decide_eq_false_2 by exact Hne. reflexivity.
Qed.

(** X9: on a history whose moods are strings and in which some record
    carries a mood, [plot_team_mood] prints nothing and hands exactly one
    chart to the plotting library: one bar for each distinct mood, each
    with a count above zero and its colour from the table (gray outside
    it), the bars adding up to the number of records that carry a mood. *)
Theorem plot_team_mood_chart (l : list value) (w : world) :
  forallb string_mood l = true ->
  existsb carries_mood l = true ->
  exists ch,
    plot_team_mood (VList l) w = (Ok VNone, add_chart ch w) /\
    bar_moods ch <> [] /\
    NoDup (bar_moods ch) /\
    length (bar_counts ch) = length (bar_moods ch) /\
    Forall (fun n => 0 < n) (bar_counts ch) /\
    list_sum (bar_counts ch) = length (filter (fun e => carries_mood e = true) l) /\
    bar_colors ch = map color_of (bar_moods ch).
Proof.
  intros Hstr Hex.
  destruct (plot_strings l w Hstr Hex) as (c & Hne & [Hk Hn] & Hsum & Hplot).
  exists (mkChart (map fst c) (map snd c) (map (fun kc => color_of (fst kc)) c)).
  cbn [bar_moods bar_counts bar_colors].
  split; [exact Hplot|]. split; [|split; [|split; [|split; [|split]]]].
  - destruct c; [contradiction | discriminate].
  - exact Hn.
  - rewrite !length_map. reflexivity.
  - clear -Hk. induction Hk as [|kn c [_ Hpos] _ IH]; constructor; assumption.
  - exact Hsum.
  - rewrite map_map. reflexivity.
Qed.

(** The chart of the sample log. *)
Lemma plot_team_mood_chart_witness :
  exists ch,
    plot_team_mood (VList sample_log) empty_world = (Ok VNone, add_chart ch empty_world) /\
    bar_moods ch <> [] /\
    NoDup (bar_moods ch) /\
    length (bar_counts ch) = length (bar_moods ch) /\
    Forall (fun n => 0 < n) (bar_counts ch) /\
    list_sum (bar_counts ch)
    = length (filter (fun e => carries_mood e = true) sample_log) /\
    bar_colors ch = map color_of (bar_moods ch).
Proof.
  apply (plot_team_mood_chart sample_log empty_world); reflexivity.
Defined.

(** X10: when no record of the history carries a mood, [plot_team_mood]
    draws nothing and prints one line: that there is no history when the
    list is empty, that there is no valid mood data otherwise. *)
Theorem plot_team_mood_nothing (l : list value) (w : world) :
  existsb carries_mood l = false ->
  plot_team_mood (VList l) w
  = (Ok VNone,
     add_stdout (if bool_decide (l = [])
                 then "⚠️ No mood history available to plot."
                 else "⚠️ No valid mood data available for plotting.") w).
Proof.
  intros Hex. destruct l as [|x l]; [reflexivity|].
  rewrite existsb_filter_length in Hex. apply Nat.ltb_ge in Hex.
  rewrite <- moods_of_length in Hex.
  rewrite plot_team_mood_list, mood_counts_eq.
  destruct (moods_of (x :: l)); [|simpl in Hex; lia].
  rewrite (bool_decide_eq_false_2 (x :: l = [])) by discriminate. reflexivity.
Qed.

(** A history loaded from storage: records without a mood. *)
Lemma plot_team_mood_nothing_witness :
  plot_team_mood (VList (map persisted_record sample_recs)) empty_world
  = (Ok VNone,
     add_stdout "⚠️ No valid mood data available for plotting." empty_world).
Proof.
  apply (plot_team_mood_nothing (map persisted_record sample_recs) empty_world).
  reflexivity.
Defined.

Lemma Counter_unhashable (items : list value) (c : list (value * nat)) :
  existsb (fun m => negb (hashable m)) items = true ->
  Counter c items = Raise (TypeError "unhashable type").
Proof.
  revert c. induction items as [|m items IH]; intros c; [discriminate|].
  cbn [existsb Counter]. destruct (hashable m); [|reflexivity].
  cbn [negb orb]. apply IH.
Qed.

Lemma moods_of_unhashable (l : list value) :
  existsb unhashable_mood l = true ->
  existsb (fun m => negb (hashable m)) (moods_of l) = true.
Proof.
  induction l as [|e l IH]; [discriminate|].
  cbn [existsb]. destruct e as [| b | z | x | t | l0 | d]; cbn [unhashable_mood moods_of orb];
    try exact IH.
  destruct (dict_get d "mood") as [m|]; [|exact IH].
  cbn [existsb]. destruct (negb (hashable m)); [reflexivity | exact IH].
Qed.

(** X11: a record whose mood is a list or a dictionary, anywhere in the
    history, makes [plot_team_mood] raise [TypeError]: it draws nothing
    and prints nothing. *)
Theorem plot_team_mood_unhashable (l : list value) (w : world) :
  existsb unhashable_mood l = true ->
  plot_team_mood (VList l) w = (Raise (TypeError "unhashable type"), w).
Proof.
  intros H. destruct l as [|x l]; [discriminate|].
  rewrite plot_team_mood_list, mood_counts_eq.
  rewrite (Counter_unhashable _ _ (moods_of_unhashable _ H)). reflexivity.
Qed.

(** A mood that is a list, after a well-formed record. *)
Lemma plot_team_mood_unhashable_witness :
  plot_team_mood (VList [sad_entry; VDict [("mood", VList [VStr "Sad"])]]) empty_world
  = (Raise (TypeError "unhashable type"), empty_world).
Proof.
  apply (plot_team_mood_unhashable
           [sad_entry; VDict [("mood", VList [VStr "Sad"])]] empty_world).
  reflexivity.
Defined.

(** ** History store *)

Section StoreMore.

Variable json_dumps : value -> string.
Variable json_loads : string -> outcome value.
Variable sha256_hexdigest : string -> string.

(** The world a save leaves: the file is rewritten and the success line
  printed, or nothing but the error line is added. *)
Lemma save_world (log : list value) (filename : string) (w : world) :
snd (save_mood_history json_dumps log filename w)
= match comprehension project log with
  | Ok recs =>
      match files w !! filename with
      | Some f =>
          if writable f
          then add_stdout "✅ Mood history successfully updated with anonymized data!"
                 (set_files (<[filename := mkFile (readable f) true
                                              (json_dumps (VList recs))]> (files w)) w)
          else add_stdout (save_error (OSError "[Errno 13] Permission denied")) w
      | None =>
          add_stdout "✅ Mood history successfully updated with anonymized data!"
            (set_files (<[filename := mkFile true true (json_dumps (VList recs))]>
                          (files w)) w)
      end
  | Raise e => add_stdout (save_error e) w
  end.
Proof.
rewrite save_mood_history_eq, save_body_eq.
destruct (comprehension project log) as [recs|e]; [|reflexivity].
unfold write_text. destruct (files w !! filename) as [f|]; [|reflexivity].
destruct (writable f); reflexivity.
Qed.

Lemma save_keeps_usable (log : list value) (filename : string) (w : world) :
file_usable filename w = true ->
file_usable filename (snd (save_mood_history json_dumps log filename w)) = true.
Proof.
intros H. rewrite save_world. unfold file_usable in *.
destruct (comprehension project log) as [recs|e]; [|exact H].
destruct (files w !! filename) as [f|] eqn:Hf.
- apply andb_prop in H. destruct H as [Hr Hw]. rewrite Hw. cbn.
  rewrite lookup_insert_eq. cbn. rewrite Hr. reflexivity.
- cbn. rewrite lookup_insert_eq. reflexivity.
Qed.

(** X12: a save replaces the file, it does not append: after any earlier
  save, a save that succeeds leaves the files it would have left
  without the earlier one. *)
Theorem save_overwrites (l1 l2 recs : list value) (filename : string) (w : world) :
file_usable filename w = true ->
comprehension project l2 = Ok recs ->
files (snd (save_mood_history json_dumps l2 filename
              (snd (save_mood_history json_dumps l1 filename w))))
= files (snd (save_mood_history json_dumps l2 filename w)).
Proof.
intros Hu H2. rewrite (save_world l2), H2. rewrite (save_world l2 filename w), H2.
rewrite (save_world l1). unfold file_usable in Hu.
destruct (comprehension project l1) as [recs1|e].
- destruct (files w !! filename) as [f|] eqn:Hf.
  + apply andb_prop in Hu. destruct Hu as [Hr Hw]. rewrite Hw. cbn.
    rewrite lookup_insert_eq. cbn. rewrite insert_insert_eq. reflexivity.
  + cbn. rewrite lookup_insert_eq. cbn. rewrite insert_insert_eq. reflexivity.
- cbn [files add_stdout]. destruct (files w !! filename) as [f|]; [|reflexivity].
  destruct (writable f); reflexivity.
Qed.

(** X13: a save touches no file but its own, draws no chart and prints
  exactly one line. *)
Theorem save_touches_its_file_only (log : list value) (filename other : string)
(w : world) :
other <> filename ->
files (snd (save_mood_history json_dumps log filename w)) !! other
  = files w !! other /\
charts (snd (save_mood_history json_dumps log filename w)) = charts w /\
exists line,
  stdout (snd (save_mood_history json_dumps log filename w)) = stdout w ++ [line].
Proof.
intros Hne. rewrite save_world.
destruct (comprehension project log) as [recs|e].
- destruct (files w !! filename) as [f|].
  + destruct (writable f); cbn; rewrite ?lookup_insert_ne by congruence; eauto.
  + cbn. rewrite lookup_insert_ne by congruence. eauto.
- cbn. eauto.
Qed.

Lemma comprehension_raises (log : list value) :
existsb (fun entry => negb (projectable entry)) log = true ->
exists e, comprehension project log = Raise e /\
          match e with
          | KeyError _ | TypeError _ => True
          | _ => False
          end.
Proof.
induction log as [|entry log IH]; [discriminate|].
cbn [existsb comprehension]. unfold projectable at 1.
destruct (project entry) as [r|e] eqn:Hp.
- cbn [negb orb]. intros H. destruct (IH H) as (e & -> & He). eauto.
- intros _. exists e. split; [reflexivity|].
  unfold project, mbind, outcome_bind in Hp.
  destruct entry as [| b | z | x | s | l | d]; cbn [subscript] in Hp;
    try (injection Hp as <-; exact I).
  destruct (dict_get d "employee_id"); [|injection Hp as <-; exact I].
  destruct (dict_get d "anonymized_mood"); [discriminate|].
  injection Hp as <-. exact I.
Qed.

(** X14: a save is all or nothing: one entry that is not a dictionary
  or lacks one of the two fields, anywhere in the log, and nothing is
  written for any record; the files stay as they were and the error
  line names a [KeyError] or a [TypeError]. *)
Theorem save_all_or_nothing (log : list value) (filename : string) (w : world) :
existsb (fun entry => negb (projectable entry)) log = true ->
exists e,
  save_mood_history json_dumps log filename w
    = (Ok VNone, add_stdout (save_error e) w) /\
  match e with
  | KeyError _ | TypeError _ => True
  | _ => False
  end.
Proof.
intros H. destruct (comprehension_raises log H) as (e & Hc & He).
exists e. split; [|exact He].
rewrite save_mood_history_eq, save_body_eq, Hc. reflexivity.
Qed.

(** X15: [load_mood_history] only reads: it leaves every file and the
  charts as they were, a corrupted file included, and prints at most
  the warning; loading again gives the same result. *)
Theorem load_reads_only (filename : string) (w : world) :
files (snd (load_mood_history json_loads filename w)) = files w /\
charts (snd (load_mood_history json_loads filename w)) = charts w /\
(stdout (snd (load_mood_history json_loads filename w)) = stdout w \/
 stdout (snd (load_mood_history json_loads filename w))
 = stdout w ++ [corrupted_warning]) /\
fst (load_mood_history json_loads filename
       (snd (load_mood_history json_loads filename w)))
= fst (load_mood_history json_loads filename w).
Proof.
destruct (files w !! filename) as [f|] eqn:Hf.
- rewrite (load_present _ _ _ _ Hf).
  destruct (String.length (data f) =? 0)%nat eqn:E.
  + cbn [snd]. rewrite (load_present _ _ _ _ Hf), E. auto.
  + destruct (readable f) eqn:Hr.
    * destruct (json_loads (data f)) as [v|e] eqn:Hj; cbn [snd fst].
      -- rewrite (load_present _ _ _ _ Hf), E, Hr, Hj. auto.
      -- destruct (is_JSONDecodeError e) eqn:He; cbn [snd fst].
         ++ rewrite (load_present _ _ (add_stdout corrupted_warning w) f Hf), E, Hr, Hj, He.
            cbn. auto.
         ++ rewrite (load_present _ _ _ _ Hf), E, Hr, Hj, He. auto.
    * cbn [snd]. rewrite (load_present _ _ _ _ Hf), E, Hr. auto.
- rewrite (load_missing _ _ _ Hf). cbn [snd]. rewrite (load_missing _ _ _ Hf). auto.
Qed.

Lemma save_stdout (log : list value) (filename : string) (w : world) :
exists line,
  stdout (snd (save_mood_history json_dumps log filename w)) = stdout w ++ [line].
Proof.
rewrite save_world. destruct (comprehension project log) as [recs|e]; [|cbn; eauto].
destruct (files w !! filename) as [f|]; [|cbn; eauto].
destruct (writable f); cbn; eauto.
Qed.

Lemma save_charts (log : list value) (filename : string) (w : world) :
charts (snd (save_mood_history json_dumps log filename w)) = charts w.
Proof.
rewrite save_world. destruct (comprehension project log) as [recs|e]; [|reflexivity].
destruct (files w !! filename) as [f|]; [|reflexivity].
destruct (writable f); reflexivity.
Qed.

(** ** Main loop *)

Lemma main_step_files (employee_id : string) (fr : frame) (history : list value)
(w : world) :
files (snd (main_step json_dumps sha256_hexdigest employee_id fr history w))
= files (snd (save_mood_history json_dumps
                (history ++ [mood_entry sha256_hexdigest employee_id
                               (detect_facial_emotion (analysis fr))])
                history_file w)).
Proof.
rewrite main_step_eq, monitor_stress_eq. cbn [snd].
destruct (3 <=? _)%nat; reflexivity.
Qed.

Lemma main_step_charts (employee_id : string) (fr : frame) (history : list value)
(w : world) :
charts (snd (main_step json_dumps sha256_hexdigest employee_id fr history w))
= charts w.
Proof.
rewrite main_step_eq, monitor_stress_eq. cbn [snd].
destruct (3 <=? _)%nat; cbn; apply save_charts.
Qed.

Lemma main_step_fst (employee_id : string) (fr : frame) (history : list value)
(w : world) :
main_step json_dumps sha256_hexdigest employee_id fr history w
= (Ok (history ++ [mood_entry sha256_hexdigest employee_id
                     (detect_facial_emotion (analysis fr))]),
   snd (main_step json_dumps sha256_hexdigest employee_id fr history w)).
Proof.
rewrite main_step_eq. reflexivity.
Qed.

Lemma main_loop_cons (employee_id : string) (fr : frame) (frames : list frame)
(history : list value) (w : world) :
main_loop json_dumps sha256_hexdigest employee_id (fr :: frames) history w
= if key_q fr
  then main_step json_dumps sha256_hexdigest employee_id fr history w
  else main_loop json_dumps sha256_hexdigest employee_id frames
         (history ++ [mood_entry sha256_hexdigest employee_id
                        (detect_facial_emotion (analysis fr))])
         (snd (main_step json_dumps sha256_hexdigest employee_id fr history w)).
Proof.
cbn [main_loop]. unfold mbind at 1, M_bind at 1.
rewrite main_step_fst. destruct (key_q fr); reflexivity.
Qed.

Lemma frame_entry_well_formed (employee_id : string) (fr : frame) :
well_formed_record
  (mood_entry sha256_hexdigest employee_id (detect_facial_emotion (analysis fr)))
  (frame_rec sha256_hexdigest employee_id fr).
Proof. split; reflexivity. Qed.

Lemma file_usable_files (filename : string) (w1 w2 : world) :
files w1 = files w2 -> file_usable filename w1 = file_usable filename w2.
Proof. unfold file_usable. intros ->. reflexivity. Qed.

(** After the loop has processed a frame, the backing file holds the dump
  of the persisted form of the whole history. *)
Lemma main_loop_file (employee_id : string) (frames : list frame) :
frames <> [] ->
forall (history : list value) (recs : list (string * string)) (w : world),
  Forall2 well_formed_record history recs ->
  file_usable history_file w = true ->
  exists f,
    files (snd (main_loop json_dumps sha256_hexdigest employee_id frames history w))
      !! history_file = Some f /\
    readable f = true /\
    data f = json_dumps
               (persisted (recs ++ map (frame_rec sha256_hexdigest employee_id)
                                     (processed key_q frames))).
Proof.
induction frames as [|fr frames IH]; [contradiction|].
intros _ history recs w Hwf Hu.
set (entry := mood_entry sha256_hexdigest employee_id
                (detect_facial_emotion (analysis fr))).
assert (Hwf' : Forall2 well_formed_record (history ++ [entry])
                 (recs ++ [frame_rec sha256_hexdigest employee_id fr])).
{ apply Forall2_app; [exact Hwf|]. constructor; [|constructor].
  apply frame_entry_well_formed. }
assert (Hstep : exists f,
           files (snd (main_step json_dumps sha256_hexdigest employee_id fr history w))
             !! history_file = Some f /\
           readable f = true /\
           data f = json_dumps
                      (persisted (recs ++ [frame_rec sha256_hexdigest employee_id fr]))).
{ rewrite main_step_files. apply save_writes; assumption. }
rewrite main_loop_cons. cbn [processed map].
destruct (key_q fr); [exact Hstep|].
destruct frames as [|fr' frames']; [exact Hstep|].
destruct (IH ltac:(discriminate) (history ++ [entry])
            (recs ++ [frame_rec sha256_hexdigest employee_id fr])
            (snd (main_step json_dumps sha256_hexdigest employee_id fr history w))
            Hwf') as (f & Hf & Hr & Hd).
- rewrite (file_usable_files _ _ _ (main_step_files _ _ _ _)).
  apply save_keeps_usable. exact Hu.
- exists f. split; [exact Hf|]. split; [exact Hr|].
  rewrite Hd, <- app_assoc. reflexivity.
Qed.

(** X16: what a session leaves for the next one: starting from a
  history of well-formed records and a usable backing file, once the
  loop has processed at least one frame, loading the file gives the
  persisted form of the whole history, the records the session started
  from followed by one record for each processed frame. *)
Theorem main_loop_persists (employee_id : string) (frames : list frame)
(history : list value) (recs : list (string * string)) (w : world) :
codec_round_trips json_dumps json_loads ->
Forall2 well_formed_record history recs ->
file_usable history_file w = true ->
frames <> [] ->
fst (load_mood_history json_loads history_file
       (snd (main_loop json_dumps sha256_hexdigest employee_id frames history w)))
= Ok (persisted (recs ++ map (frame_rec sha256_hexdigest employee_id)
                            (processed key_q frames))).
Proof.
intros Hcodec Hwf Hu Hne.
destruct (main_loop_file employee_id frames Hne history recs w Hwf Hu)
  as (f & Hf & Hr & Hd).
rewrite (load_dumped json_dumps json_loads _ _ _ f Hcodec Hf Hr Hd). reflexivity.
Qed.

(** X17: a frame after which [q] is pressed ends the loop: the frames
  behind it change neither the history nor the world. *)
Theorem main_loop_stops_at_q (employee_id : string) (before after : list frame)
(fr : frame) (history : list value) (w : world) :
key_q fr = true ->
main_loop json_dumps sha256_hexdigest employee_id (before ++ fr :: after) history w
= main_loop json_dumps sha256_hexdigest employee_id (before ++ [fr]) history w.
Proof.
intros Hq. revert history w.
induction before as [|fr0 before IH]; intros history w.
- cbn [app]. rewrite !main_loop_cons, Hq. reflexivity.
- cbn [app]. rewrite !main_loop_cons. destruct (key_q fr0); [reflexivity|].
  apply IH.
Qed.

(** X18: stored JSON that is not a list stops the session at the first
  frame: [main] raises [AttributeError] before anything is saved or
  printed. *)
Theorem main_crashes_on_non_list (employee_id : string) (frames : list frame)
(w : world) (f : file) (v : value) :
files w !! history_file = Some f ->
data f <> EmptyString ->
readable f = true ->
json_loads (data f) = Ok v ->
is_list v = false ->
frames <> [] ->
main json_dumps json_loads sha256_hexdigest employee_id frames w
= (Raise (AttributeError "object has no attribute 'append'"), w).
Proof.
intros Hf Hd Hr Hj Hv Hne. unfold main, mbind at 1, M_bind at 1.
rewrite (load_present json_loads _ _ _ Hf), Hr, Hj.
destruct (String.length (data f) =? 0)%nat eqn:E.
{ apply length_zero_empty in E. contradiction. }
destruct frames as [|fr frames]; [contradiction|].
destruct v; try reflexivity. discriminate.
Qed.

Lemma main_loop_charts (employee_id : string) (frames : list frame)
(history : list value) (w : world) :
charts (snd (main_loop json_dumps sha256_hexdigest employee_id frames history w))
= charts w.
Proof.
revert history w. induction frames as [|fr frames IH]; intros history w;
  [reflexivity|].
rewrite main_loop_cons. destruct (key_q fr).
- apply main_step_charts.
- rewrite IH. apply main_step_charts.
Qed.

Lemma main_loop_fst (employee_id : string) (frames : list frame)
(history : list value) (w : world) :
main_loop json_dumps sha256_hexdigest employee_id frames history w
= (Ok (history ++ map (fun fr => mood_entry sha256_hexdigest employee_id
                                  (detect_facial_emotion (analysis fr)))
                    (processed key_q frames)),
   snd (main_loop json_dumps sha256_hexdigest employee_id frames history w)).
Proof.
pose proof (main_loop_returns json_dumps sha256_hexdigest employee_id frames history w)
  as H.
destruct (main_loop _ _ _ _ _ _) as [r w']. cbn [fst snd] in *. rewrite H. reflexivity.
Qed.

Lemma created_string_moods (employee_id : string) (frames : list frame) :
forallb string_mood
  (map (fun fr => mood_entry sha256_hexdigest employee_id
                    (detect_facial_emotion (analysis fr))) frames) = true.
Proof.
induction frames as [|fr frames IH]; [reflexivity|]. cbn [map forallb].
rewrite IH. reflexivity.
Qed.

Lemma created_carry_mood (employee_id : string) (frames : list frame) :
filter (fun e => carries_mood e = true)
  (map (fun fr => mood_entry sha256_hexdigest employee_id
                    (detect_facial_emotion (analysis fr))) frames)
= map (fun fr => mood_entry sha256_hexdigest employee_id
                   (detect_facial_emotion (analysis fr))) frames.
Proof.
induction frames as [|fr frames IH]; [reflexivity|]. cbn [map].
rewrite filter_cons_True by reflexivity. rewrite IH. reflexivity.
Qed.

(** X19: a first session, with no backing file, never raises.  With no
  frame it only reports that there is no history; otherwise it ends by
  drawing one chart whose bars add up to the number of processed
  frames. *)
Theorem main_first_session (employee_id : string) (frames : list frame) (w : world) :
files w !! history_file = None ->
fst (main json_dumps json_loads sha256_hexdigest employee_id frames w) = Ok VNone /\
(frames = [] ->
 main json_dumps json_loads sha256_hexdigest employee_id frames w
 = (Ok VNone, add_stdout "⚠️ No mood history available to plot." w)) /\
(frames <> [] ->
 exists ch,
   charts (snd (main json_dumps json_loads sha256_hexdigest employee_id frames w))
     = charts w ++ [ch] /\
   list_sum (bar_counts ch) = length (processed key_q frames)).
Proof.
intros Hf.
assert (Hmain : main json_dumps json_loads sha256_hexdigest employee_id frames w
                = plot_team_mood
                    (VList (map (fun fr => mood_entry sha256_hexdigest employee_id
                                             (detect_facial_emotion (analysis fr)))
                              (processed key_q frames)))
                    (snd (main_loop json_dumps sha256_hexdigest employee_id
                            frames [] w))).
{ unfold main, mbind at 1, M_bind at 1. rewrite (load_missing json_loads _ _ Hf).
  unfold mbind, M_bind. rewrite main_loop_fst. reflexivity. }
destruct frames as [|fr frames].
- rewrite Hmain. cbn. split; [reflexivity|]. split; [reflexivity|]. contradiction.
- set (created := map (fun fr => mood_entry sha256_hexdigest employee_id
                                   (detect_facial_emotion (analysis fr)))
                    (processed key_q (fr :: frames))) in *.
  destruct (plot_strings created
              (snd (main_loop json_dumps sha256_hexdigest employee_id
                      (fr :: frames) [] w)))
    as (c & _ & _ & Hsum & Hplot).
  + apply created_string_moods.
  + reflexivity.
  + rewrite Hmain, Hplot. split; [reflexivity|]. split; [discriminate|].
    intros _. eexists. cbn [snd charts add_chart]. rewrite main_loop_charts.
    split; [reflexivity|]. cbn [bar_counts]. rewrite Hsum.
    unfold created. rewrite created_carry_mood, length_map. reflexivity.
Qed.

Lemma persisted_string_moods (recs : list (string * string)) :
forallb string_mood (map persisted_record recs) = true.
Proof.
induction recs as [|r recs IH]; [reflexivity|]. cbn [map forallb].
rewrite IH. reflexivity.
Qed.

Lemma persisted_carry_none (recs : list (string * string)) :
filter (fun e => carries_mood e = true) (map persisted_record recs) = [].
Proof.
induction recs as [|r recs IH]; [reflexivity|]. cbn [map].
rewrite filter_cons_False by (cbn; discriminate). exact IH.
Qed.

(** X21: a later session, started on a readable file that holds the
  dump of a persisted log, never raises when at least one frame is
  processed, and the chart it ends with counts the records of this
  session only: its bars add up to the number of processed frames,
  none of the stored records is in them. *)
Theorem main_later_session (employee_id : string) (fr : frame) (frames : list frame)
(recs : list (string * string)) (w : world) (f : file) :
codec_round_trips json_dumps json_loads ->
files w !! history_file = Some f ->
readable f = true ->
data f = json_dumps (persisted recs) ->
fst (main json_dumps json_loads sha256_hexdigest employee_id (fr :: frames) w)
  = Ok VNone /\
exists ch,
  charts (snd (main json_dumps json_loads sha256_hexdigest employee_id
                 (fr :: frames) w))
    = charts w ++ [ch] /\
  list_sum (bar_counts ch) = length (processed key_q (fr :: frames)).
Proof.
intros Hcodec Hf Hr Hd.
set (created := map (fun fr => mood_entry sha256_hexdigest employee_id
                                 (detect_facial_emotion (analysis fr)))
                  (processed key_q (fr :: frames))).
assert (Hmain : main json_dumps json_loads sha256_hexdigest employee_id (fr :: frames) w
                = plot_team_mood (VList (map persisted_record recs ++ created))
                    (snd (main_loop json_dumps sha256_hexdigest employee_id
                            (fr :: frames) (map persisted_record recs) w))).
{ unfold main, mbind at 1, M_bind at 1.
  rewrite (load_dumped json_dumps json_loads recs _ _ f Hcodec Hf Hr Hd).
  unfold persisted, mbind, M_bind. rewrite main_loop_fst. reflexivity. }
destruct (plot_strings (map persisted_record recs ++ created)
            (snd (main_loop json_dumps sha256_hexdigest employee_id
                    (fr :: frames) (map persisted_record recs) w)))
  as (c & _ & _ & Hsum & Hplot).
- rewrite forallb_app, persisted_string_moods. apply created_string_moods.
- rewrite existsb_app. apply orb_true_iff. right. reflexivity.
- rewrite Hmain, Hplot. split; [reflexivity|].
  eexists. cbn [snd charts add_chart]. rewrite main_loop_charts.
  split; [reflexivity|]. cbn [bar_counts]. rewrite Hsum.
  rewrite filter_app, persisted_carry_none. cbn [app].
  unfold created. rewrite created_carry_mood, length_map. reflexivity.
Qed.

(** X20: the third sad frame in a row: when the last two records of the
  history are [Sad] and the first face of the frame is [sad] in some
  letter case, the iteration prints, in this order, the line of the
  save, the stress alert, the employee line with the mood [Sad], and a
  recommendation that is one of the three tasks for [Sad]. *)
Theorem third_sad_frame (employee_id : string) (fr : frame) (e : string)
(faces : list string) (old : list value) (a b : value) (w : world) :
analysis fr = e :: faces ->
lower e = "sad" ->
is_sad_record a = true ->
is_sad_record b = true ->
exists line task,
  stdout (snd (main_step json_dumps sha256_hexdigest employee_id fr
                 (old ++ [a; b]) w))
  = stdout w ++ [line; alert_message;
                 "🧐 Employee: " +:+ employee_id +:+ " | Detected Mood: Sad";
                 "🎯 Recommended Task: " +:+ task] /\
  In task ["Take a break"; "Listen to music"; "Talk to a friend"].
Proof.
intros Hfr He Ha Hb.
assert (Hmood : detect_facial_emotion (analysis fr) = "Sad").
{ rewrite Hfr. cbn [detect_facial_emotion]. apply capitalize_sad. exact He. }
rewrite main_step_eq, Hmood, monitor_stress_eq.
rewrite <- app_assoc. cbn [app]. rewrite sad_in_window_tail3.
rewrite !filter_cons_True, filter_nil by (first [assumption | reflexivity]).
cbn [length].
replace (3 <=? _ + 3)%nat with true by (symmetry; apply Nat.leb_le; lia).
destruct (save_stdout
            (old ++ [a; b; mood_entry sha256_hexdigest employee_id "Sad"])
            history_file w) as (line & Hline).
exists line, (recommend_task (draw fr) "Sad").
cbn [snd stdout add_stdout]. rewrite Hline, <- !app_assoc. split; [reflexivity|].
rewrite recommend_task_eq. apply random_choice_In. discriminate.
Qed.

End StoreMore.

(** ** Instances of the further properties *)

(** A save of the sample log after a save that failed on a malformed
    log. *)
Lemma save_overwrites_witness :
  files (snd (save_mood_history dumps sample_log' "mood_history.json"
                (snd (save_mood_history dumps [VInt 1] "mood_history.json" empty_world))))
  = files (snd (save_mood_history dumps sample_log' "mood_history.json" empty_world)).
Proof.
  apply (save_overwrites dumps [VInt 1] sample_log' (map persisted_record sample_recs)
           "mood_history.json" empty_world); reflexivity.
Defined.

(** Another file beside the backing file. *)
Lemma save_touches_its_file_only_witness :
  files (snd (save_mood_history dumps sample_log "mood_history.json" read_only_world))
    !! "notes.txt"
  = files read_only_world !! "notes.txt".
Proof.
  apply (save_touches_its_file_only dumps sample_log "mood_history.json" "notes.txt"
           read_only_world).
  discriminate.
Defined.

(** A number among the records. *)
Lemma save_all_or_nothing_witness :
  exists e,
    save_mood_history dumps [sad_entry; VInt 3; calm_entry] "mood_history.json" empty_world
      = (Ok VNone, add_stdout (save_error e) empty_world) /\
    match e with
    | KeyError _ | TypeError _ => True
    | _ => False
    end.
Proof.
  apply (save_all_or_nothing dumps [sad_entry; VInt 3; calm_entry]
           "mood_history.json" empty_world).
  reflexivity.
Defined.

(** Three frames, [q] pressed after the second, on top of the sample
    log. *)
Lemma main_loop_persists_witness :
  fst (load_mood_history loads history_file
         (snd (main_loop dumps sample_digest "E9"
                 [sad_frame; mkFrame [] 1 true; sad_frame] sample_log empty_world)))
  = Ok (persisted
          (sample_recs ++ map (frame_rec sample_digest "E9")
                            (processed key_q [sad_frame; mkFrame [] 1 true; sad_frame]))).
Proof.
  apply (main_loop_persists dumps loads sample_digest "E9"
           [sad_frame; mkFrame [] 1 true; sad_frame] sample_log sample_recs empty_world
           ref_codec_round_trips).
  - exact sample_log_well_formed.
  - reflexivity.
  - discriminate.
Defined.

Lemma main_loop_stops_at_q_witness :
  main_loop dumps sample_digest "E9" ([sad_frame] ++ mkFrame [] 1 true :: [sad_frame])
    [] empty_world
  = main_loop dumps sample_digest "E9" ([sad_frame] ++ [mkFrame [] 1 true])
      [] empty_world.
Proof.
  apply (main_loop_stops_at_q dumps sample_digest "E9" [sad_frame] [sad_frame]
           (mkFrame [] 1 true) [] empty_world).
  reflexivity.
Defined.

(** A backing file that holds a JSON object. *)
Lemma main_crashes_on_non_list_witness :
  main dumps loads sample_digest "E9" [sad_frame] object_world
  = (Raise (AttributeError "object has no attribute 'append'"), object_world).
Proof.
  apply (main_crashes_on_non_list dumps loads sample_digest "E9" [sad_frame]
           object_world (mkFile true true "{}") (VDict [])).
  - apply file_world_lookup.
  - discriminate.
  - reflexivity.
  - reflexivity.
  - reflexivity.
  - discriminate.
Defined.

Lemma main_first_session_witness :
  fst (main dumps loads sample_digest "E9" [sad_frame; sad_frame] empty_world)
  = Ok VNone.
Proof.
  apply (main_first_session dumps loads sample_digest "E9" [sad_frame; sad_frame]
           empty_world).
  reflexivity.
Defined.

(** Two sad records in the history and a frame reported as [SAD]. *)
Lemma third_sad_frame_witness :
  exists line task,
    stdout (snd (main_step dumps sample_digest "E9" (mkFrame ["SAD"; "happy"] 2 false)
                   ([calm_entry] ++ [sad_entry; sad_entry]) empty_world))
    = stdout empty_world
      ++ [line; alert_message;
          "🧐 Employee: " +:+ "E9" +:+ " | Detected Mood: Sad";
          "🎯 Recommended Task: " +:+ task] /\
    In task ["Take a break"; "Listen to music"; "Talk to a friend"].
Proof.
  apply (third_sad_frame dumps sample_digest "E9" (mkFrame ["SAD"; "happy"] 2 false)
           "SAD" ["happy"] [calm_entry] sad_entry sad_entry empty_world);
    reflexivity.
Defined.

(** A session on the file that a save of the sample log left. *)
Lemma main_later_session_witness :
  fst (main dumps loads sample_digest "E9" (sad_frame :: [sad_frame])
         (file_world history_file (mkFile true true (dumps (persisted sample_recs)))))
    = Ok VNone /\
  exists ch,
    charts (snd (main dumps loads sample_digest "E9" (sad_frame :: [sad_frame])
                   (file_world history_file
                      (mkFile true true (dumps (persisted sample_recs))))))
      = charts (file_world history_file
                  (mkFile true true (dumps (persisted sample_recs)))) ++ [ch] /\
    list_sum (bar_counts ch) = length (processed key_q (sad_frame :: [sad_frame])).
Proof.
  apply (main_later_session dumps loads sample_digest "E9" sad_frame [sad_frame]
           sample_recs
           (file_world history_file (mkFile true true (dumps (persisted sample_recs))))
           (mkFile true true (dumps (persisted sample_recs)))
           ref_codec_round_trips).
  - apply file_world_lookup.
  - reflexivity.
  - reflexivity.
Defined.

(** ** The history as an object of the store *)

Section ObjectStore.

Variable json_dumps : value -> string.
Variable json_dump_partial : heap -> list (list (string * ref)) -> string.
Variable sha256_hexdigest : string -> string.

(** The comprehension over the guarded records never raises: the guard
    lets through dictionaries that have the field. *)
Lemma guarded_subscript (h : heap) (entry : ref) :
  Objects.is_dict h entry && Objects.has_key h "mood" entry = true ->
  exists mood, Objects.subscript h entry "mood" = Ok mood.
Proof.
  unfold Objects.is_dict, Objects.has_key, Objects.subscript.
  destruct entry as [| | | | |l]; try discriminate.
  destruct (h !! l) as [[items|fields]|]; try discriminate.
  cbn [andb]. intros H. apply bool_decide_eq_true in H. destruct H as [x Hx].
  rewrite Hx. eauto.
Qed.

Lemma guarded_comprehension (h : heap) (entries : list ref) :
  exists moods,
    comprehension (fun entry => Objects.subscript h entry "mood")
      (filter (fun entry => Objects.is_dict h entry
                            && Objects.has_key h "mood" entry = true) entries)
    = Ok moods.
Proof.
  induction entries as [|entry entries [moods IH]]; [exists []; reflexivity|].
  destruct (decide (Objects.is_dict h entry && Objects.has_key h "mood" entry = true))
    as [Hg|Hg].
  - rewrite filter_cons_True by exact Hg. cbn [comprehension].
    destruct (guarded_subscript _ _ Hg) as [mood ->]. rewrite IH. eauto.
  - rewrite filter_cons_False by exact Hg. eauto.
Qed.

(** The stress check leaves the store as it is. *)
Lemma monitor_stress_heap (mood_history : ref) (h : heap) (w : world) :
  Objects.heap_of (Objects.monitor_stress mood_history h w) = h.
Proof.
  unfold Objects.monitor_stress, mbind, Objects.HM_bind, Objects.read.
  destruct (Objects.recent_moods h mood_history) as [moods|e]; [|reflexivity].
  destruct (stress_threshold <=? Objects.stressed_count moods)%nat; reflexivity.
Qed.

Lemma monitor_stress_list (a : loc) (items : list ref) (h : heap) (w : world) :
  h !! a = Some (OList items) ->
  exists w', Objects.monitor_stress (RObj a) h w = (Ok VNone, h, w').
Proof.
  intros Ha.
  unfold Objects.monitor_stress, mbind, Objects.HM_bind, Objects.read,
    Objects.recent_moods, Objects.slice_items.
  rewrite Ha. cbn [mbind outcome_bind].
  destruct (guarded_comprehension h (slice_from (-5) items)) as [moods ->].
  destruct (stress_threshold <=? Objects.stressed_count moods)%nat; eexists; reflexivity.
Qed.

(** The save returns normally and leaves the store as it is. *)
Lemma save_mood_history_heap (mood_history : ref) (filename : string)
  (h : heap) (w : world) :
  exists w',
    Objects.save_mood_history json_dumps json_dump_partial mood_history filename h w
    = (Ok VNone, h, w').
Proof.
  unfold Objects.save_mood_history, Objects.try_except, Objects.save_body,
    mbind, Objects.HM_bind, Objects.read.
  destruct (Objects.iterate h mood_history) as [entries|e]; [|eexists; reflexivity].
  destruct (comprehension (Objects.project h) entries) as [filtered|e];
    [|eexists; reflexivity].
  unfold Objects.json_dump, Objects.run.
  destruct (mapM (Objects.denote_fields h) filtered) as [records|].
  - destruct (write_text filename _ w) as [[v|e] w1]; eexists; reflexivity.
  - destruct (write_text filename _ w) as [[v|e] w1]; eexists; reflexivity.
Qed.

(** The aggregation and the chart leave the store as it is. *)
Lemma plot_team_mood_heap (mood_history : ref) (h : heap) (w : world) :
  Objects.heap_of (Objects.plot_team_mood mood_history h w) = h.
Proof.
  unfold Objects.plot_team_mood, mbind, Objects.HM_bind, Objects.read.
  destruct (negb (Objects.truthy h mood_history)); [reflexivity|].
  destruct (Objects.iterate h mood_history) as [entries|e]; [|reflexivity].
  destruct (Objects.mood_counts h entries) as [counts|e]; [|reflexivity].
  destruct (bool_decide (counts = [])); reflexivity.
Qed.

(** One iteration on a history that is a list: a new record after the
    objects of the store, and a reference to it at the end of the
    list. *)
Lemma main_step_heap (employee_id : string) (fr : frame) (a : loc)
  (items : list ref) (h : heap) (w : world) :
  h !! a = Some (OList items) ->
  exists w',
    Objects.main_step json_dumps json_dump_partial sha256_hexdigest
      employee_id fr (RObj a) h w
    = (Ok VNone,
       <[a := OList (items ++ [RObj (length h)])]> h
         ++ [ODict (Objects.mood_entry sha256_hexdigest employee_id
                      (detect_facial_emotion (analysis fr)))],
       w').
Proof.
  intros Ha. pose proof (lookup_lt_Some _ _ _ Ha) as Hlt.
  unfold Objects.main_step, mbind at 1, Objects.HM_bind at 1, Objects.new_dict.
  unfold mbind at 1, Objects.HM_bind at 1, Objects.list_append.
  rewrite (lookup_app_l_Some _ _ _ _ Ha).
  rewrite insert_app_l by exact Hlt.
  set (h1 := <[a := _]> h ++ _).
  assert (Ha1 : h1 !! a = Some (OList (items ++ [RObj (length h)]))).
  { unfold h1. apply lookup_app_l_Some. apply list_lookup_insert_eq. exact Hlt. }
  unfold mbind at 1, Objects.HM_bind at 1.
  destruct (save_mood_history_heap (RObj a) history_file h1 w) as [w1 ->].
  unfold mbind at 1, Objects.HM_bind at 1.
  destruct (monitor_stress_list _ _ _ w1 Ha1) as [w2 ->].
  eexists. reflexivity.
Qed.

(** The store after the loop: the history grown by references to the
    records created, and the records after the objects that were
    there. *)
Lemma main_loop_heap (employee_id : string) (frames : list frame) (a : loc)
  (items : list ref) (h : heap) (w : world) :
  h !! a = Some (OList items) ->
  exists w',
    Objects.main_loop json_dumps json_dump_partial sha256_hexdigest
      employee_id frames (RObj a) h w
    = (Ok VNone,
       <[a := OList (items ++ map RObj (seq (length h) (length (session_moods frames))))]> h
         ++ map (fun mood => ODict (Objects.mood_entry sha256_hexdigest employee_id mood))
              (session_moods frames),
       w').
Proof.
  revert items h w. induction frames as [|fr frames IH]; intros items h w Ha.
  - exists w. cbn. rewrite !app_nil_r, list_insert_id by exact Ha. reflexivity.
  - pose proof (lookup_lt_Some _ _ _ Ha) as Hlt.
    cbn [Objects.main_loop]. unfold mbind at 1, Objects.HM_bind at 1.
    destruct (main_step_heap employee_id fr a items h w Ha) as [w1 ->].
    unfold session_moods. cbn [processed map length seq].
    destruct (key_q fr).
    + exists w1. cbn. reflexivity.
    + set (h1 := <[a := _]> h ++ _).
      assert (Ha1 : h1 !! a = Some (OList (items ++ [RObj (length h)]))).
      { unfold h1. apply lookup_app_l_Some. apply list_lookup_insert_eq. exact Hlt. }
      assert (Hlen : length h1 = S (length h)).
      { unfold h1. rewrite length_app, length_insert. cbn. lia. }
      destruct (IH _ h1 w1 Ha1) as [w2 ->]. exists w2.
      rewrite Hlen. fold (session_moods frames). f_equal. f_equal.
      unfold h1.
      rewrite insert_app_l by (rewrite length_insert; exact Hlt).
      rewrite list_insert_insert_eq, <- !app_assoc. reflexivity.
Qed.

Lemma session_records (employee_id : string) (moods : list string) (a : loc)
  (x : object) (h : heap) :
  a < length h ->
  let h' := <[a := x]> h
            ++ map (fun mood => ODict (Objects.mood_entry sha256_hexdigest
                                         employee_id mood)) moods in
  Forall2 (mood_record sha256_hexdigest employee_id h')
    (map RObj (seq (length h) (length moods))) moods.
Proof.
  intros Hlt h'. apply Forall2_same_length_lookup. split.
  - rewrite length_map, length_seq. reflexivity.
  - intros i r mood Hr Hm.
    pose proof (lookup_lt_Some _ _ _ Hm) as Hi.
    rewrite list_lookup_fmap, lookup_seq_lt in Hr by exact Hi.
    injection Hr as <-. exists (length h + i). split; [reflexivity|].
    unfold h'. rewrite lookup_app_r by (rewrite length_insert; lia).
    rewrite length_insert.
    replace (length h + i - length h) with i by lia.
    rewrite list_lookup_fmap, Hm. reflexivity.
Qed.

Lemma session_unchanged (a : loc) (x : object) (h t : heap) :
  unchanged_but a h (<[a := x]> h ++ t).
Proof.
  intros l o Hl Ho. apply lookup_app_l_Some.
  rewrite list_lookup_insert_ne by congruence. exact Ho.
Qed.

(** C8: the history is one list of the store and a record is a
    dictionary of the store.  Neither the save, nor the stress check,
    nor the aggregation and its chart changes any object, whatever they
    are handed and whatever they do to the world; the recommendation
    is given the mood alone, a string.  One iteration of the loop on a
    history that is a list adds one dictionary with [employee_id],
    [mood] and [anonymized_mood = anonymize_data(mood)] to the store
    and a reference to it to the end of the list, and nothing else.
    After the whole loop, and after the chart that follows it, the
    list holds the references it held followed by those of the records
    created, every record created still has its three fields with
    [anonymized_mood] the digest of [mood], and every other object that
    was in the store is as it was. *)
Theorem main_loop_invariant (employee_id : string) :
  (forall mood_history filename h w,
     Objects.heap_of
       (Objects.save_mood_history json_dumps json_dump_partial
          mood_history filename h w) = h) /\
  (forall mood_history h w,
     Objects.heap_of (Objects.monitor_stress mood_history h w) = h) /\
  (forall mood_history h w,
     Objects.heap_of (Objects.plot_team_mood mood_history h w) = h) /\
  (forall fr a items h w,
     h !! a = Some (OList items) ->
     let r := Objects.main_step json_dumps json_dump_partial sha256_hexdigest
                employee_id fr (RObj a) h w in
     let mood := detect_facial_emotion (analysis fr) in
     Objects.result_of r = Ok VNone /\
     Objects.heap_of r
     = <[a := OList (items ++ [RObj (length h)])]> h
       ++ [ODict [("employee_id", RStr employee_id);
                  ("mood", RStr mood);
                  ("anonymized_mood", RStr (anonymize_data sha256_hexdigest mood))]]) /\
  (forall frames a items h w,
     h !! a = Some (OList items) ->
     let r := Objects.main_loop json_dumps json_dump_partial sha256_hexdigest
                employee_id frames (RObj a) h w in
     let h' := Objects.heap_of r in
     let created := map RObj (seq (length h) (length (session_moods frames))) in
     Objects.result_of r = Ok VNone /\
     Objects.heap_of
       (Objects.main_session json_dumps json_dump_partial sha256_hexdigest
          employee_id frames (RObj a) h w) = h' /\
     h' !! a = Some (OList (items ++ created)) /\
     length h' = length h + length (session_moods frames) /\
     Forall2 (mood_record sha256_hexdigest employee_id h') created
       (session_moods frames) /\
     unchanged_but a h h').
Proof.
  split; [|split; [|split; [|split]]].
  - intros mood_history filename h w.
    destruct (save_mood_history_heap mood_history filename h w) as [w' ->].
    reflexivity.
  - apply monitor_stress_heap.
  - apply plot_team_mood_heap.
  - intros fr a items h w Ha.
    destruct (main_step_heap employee_id fr a items h w Ha) as [w' ->].
    split; reflexivity.
  - intros frames a items h w Ha.
    pose proof (lookup_lt_Some _ _ _ Ha) as Hlt.
    unfold Objects.main_session, mbind, Objects.HM_bind.
    destruct (main_loop_heap employee_id frames a items h w Ha) as [w' ->].
    cbv zeta. unfold Objects.result_of, Objects.heap_of at 2 3 4 5 6. cbn [fst snd].
    split; [reflexivity|]. split; [apply plot_team_mood_heap|].
    split; [|split; [|split]].
    + apply lookup_app_l_Some. apply list_lookup_insert_eq. exact Hlt.
    + rewrite length_app, length_insert, length_map. reflexivity.
    + apply session_records. exact Hlt.
    + apply session_unchanged.
Qed.

End ObjectStore.

(** A session of three frames, the second followed by [q], on a store
    that holds a history of one stored record and a list that contains
    itself: two records are created. *)
Lemma main_loop_invariant_witness :
  let r := Objects.main_loop RefJson.dumps sample_partial sample_digest
             "E7" [sad_frame; quit_frame; sad_frame] (RObj 1) sample_heap empty_world in
  Objects.result_of r = Ok VNone /\
  Objects.heap_of
    (Objects.main_session RefJson.dumps sample_partial sample_digest
       "E7" [sad_frame; quit_frame; sad_frame] (RObj 1) sample_heap empty_world)
  = Objects.heap_of r /\
  Objects.heap_of r !! 1 = Some (OList ([RObj 0] ++ [RObj 3; RObj 4])) /\
  length (Objects.heap_of r) = 3 + 2 /\
  Forall2 (mood_record sample_digest "E7" (Objects.heap_of r))
    [RObj 3; RObj 4] ["Sad"; "Neutral"] /\
  unchanged_but 1 sample_heap (Objects.heap_of r).
Proof.
  exact (proj2 (proj2 (proj2 (proj2
           (main_loop_invariant RefJson.dumps sample_partial sample_digest "E7"))))
           [sad_frame; quit_frame; sad_frame] 1 [RObj 0] sample_heap empty_world eq_refl).
Defined.

(** ** The two embeddings agree *)

Lemma denote_atom (n : nat) (h : heap) (r : ref) (v : value) :
  Objects.atom r = Some v -> Objects.denote n h r = Some v.
Proof. destruct n, r; try discriminate; intros H; exact H. Qed.

Lemma denote_atom_inv (n : nat) (h : heap) (r : ref) (v v' : value) :
  Objects.atom r = Some v -> Objects.denote n h r = Some v' -> v' = v.
Proof.
  intros Ha Hd. rewrite (denote_atom n h r v Ha) in Hd. congruence.
Qed.



























Section Refinement.

Variable json_dumps : value -> string.
Variable json_dump_partial : heap -> list (list (string * ref)) -> string.
Variable sha256_hexdigest : string -> string.








End Refinement.


